(** * A personal library catalogue: the record model and the catalogue store

    Shallow embedding of [main.py] (classes [Book] and
    [LibraryManagementSystem]) together with the parts of the Python runtime
    the two classes rely on: text files, [json.dump] / [json.load],
    [os.urandom], [print], and the exceptions that travel between them.

    Conventions.
    - A Python [str] is a [string] holding the UTF-8 bytes of the text, so
      [==] is equality of strings and [in] is the search for a contiguous
      run of bytes (UTF-8 is self-synchronising, so both agree with the
      code-point versions).
    - A Python [int] is a [Z].
    - Attributes of a [Book] are dynamically typed: they hold arbitrary
      objects of the kind [json.load] builds ([pyobj]).
    - Floating-point numbers and strings with unpaired surrogates are not
      represented; a document containing one is reported as [Unmodelled]. *)

From Stdlib Require Import ZArith String Ascii List Lia Bool.
From Stdlib Require Import Decimal DecimalString DecimalZ DecimalPos DecimalFacts.
From stdpp Require Import gmap strings.

Local Open Scope string_scope.
Local Open Scope Z_scope.
Local Open Scope list_scope.
Set Warnings "-register-all".

(** ** Python objects and exceptions *)

Module Py.

(** The objects [json.load] can build (floats left out). A [dict] keeps its
    insertion order and has pairwise distinct keys, see [wf]. *)
Inductive pyobj : Type :=
| PyNone
| PyBool (b : bool)
| PyInt (z : Z)
| PyStr (s : string)
| PyList (l : list pyobj)
| PyDict (d : list (string * pyobj)).

(** The exceptions that occur. [Unmodelled] is not a Python exception: it
    marks a run that left the modelled fragment (a float or an unpaired
    surrogate in the document); no handler catches it. *)
Inductive exn : Type :=
| IOError
| JSONDecodeError
| UnicodeDecodeError
| KeyError (key : string)
| TypeError
| AttributeError
| ValueError
| Unmodelled.

Inductive result (A : Type) : Type :=
| Ok (a : A)
| Raise (e : exn).
Arguments Ok {A} a.
Arguments Raise {A} e.

(** [d[key]] on a dict. *)
Fixpoint dict_get (d : list (string * pyobj)) (key : string) : option pyobj :=
  match d with
  | [] => None
  | (k, v) :: d' => if String.eqb k key then Some v else dict_get d' key
  end.

(** [d[key] = v] on a dict: an existing key keeps its position. *)
Fixpoint dict_set (d : list (string * pyobj)) (key : string) (v : pyobj)
  : list (string * pyobj) :=
  match d with
  | [] => [(key, v)]
  | (k, w) :: d' =>
      if String.eqb k key then (k, v) :: d' else (k, w) :: dict_set d' key v
  end.

(** [dict(pairs)]. *)
Definition dict_of_pairs (pairs : list (string * pyobj)) : list (string * pyobj) :=
  fold_left (fun d kv => dict_set d (fst kv) (snd kv)) pairs [].



(** [obj[key]] with a [str] key, for any object: a dict looks the key up,
    every other object of this kind refuses a string subscript. *)
Definition getitem (obj : pyobj) (key : string) : result pyobj :=
  match obj with
  | PyDict d =>
      match dict_get d key with
      | Some v => Ok v
      | None => Raise (KeyError key)
      end
  | _ => Raise TypeError
  end.

(** The characters of a text: a byte that continues a UTF-8 sequence
    (10xxxxxx) stays with the character before it. *)
Definition is_continuation (s : string) : bool :=
  match s with
  | String c _ => let n := N_of_ascii c in ((128 <=? n) && (n <? 192))%N
  | "" => false
  end.

Fixpoint characters (s : string) : list string :=
  match s with
  | "" => []
  | String c s' =>
      match characters s' with
      | ch :: chs =>
          if is_continuation s' then String c ch :: chs
          else String c "" :: ch :: chs
      | [] => [String c ""]
      end
  end.

(** [iter(obj)] run to the end: the sequence a [for] loop visits. *)
Definition iterate (obj : pyobj) : result (list pyobj) :=
  match obj with
  | PyList l => Ok l
  | PyDict d => Ok (map (fun kv => PyStr (fst kv)) d)
  | PyStr s => Ok (map PyStr (characters s))
  | _ => Raise TypeError
  end.

(** [obj == n] for an [int] n: numbers compare by value ([True == 1]),
    everything else differs from an int. *)
Definition eq_int (obj : pyobj) (n : Z) : bool :=
  match obj with
  | PyInt z => Z.eqb z n
  | PyBool b => Z.eqb (if b then 1 else 0) n
  | _ => false
  end.

(** [str(n)] for an [int]. *)
Definition str_int (n : Z) : string := NilZero.string_of_int (Z.to_int n).

(** [s.startswith(p)]. *)
Fixpoint startswith (s p : string) : bool :=
  match p, s with
  | "", _ => true
  | String _ _, "" => false
  | String a p', String b s' => Ascii.eqb a b && startswith s' p'
  end.

(** [sub in s] for two strings: [sub] starts at some position of [s]. *)
Fixpoint contains (sub s : string) : bool :=
  startswith s sub ||
  match s with
  | "" => false
  | String _ s' => contains sub s'
  end.

(** Two lower-case hexadecimal digits of a byte, as [bytes.hex] prints it. *)
Definition hexdigit (n : N) : ascii :=
  if (n <? 10)%N then ascii_of_N (48 + n) else ascii_of_N (87 + n).

Definition hex_byte (b : Byte.byte) : string :=
  let n := Byte.to_N b in
  String (hexdigit (n / 16)) (String (hexdigit (n mod 16)) "").

(** [bytes.hex()]. *)
Definition hex (bs : list Byte.byte) : string :=
  fold_right (fun b acc => hex_byte b +:+ acc) "" bs.

(** Value of a hexadecimal digit, either case. *)
Definition hexval (c : ascii) : option N :=
  let n := N_of_ascii c in
  if ((48 <=? n) && (n <=? 57))%N then Some (n - 48)%N
  else if ((97 <=? n) && (n <=? 102))%N then Some (n - 87)%N
  else if ((65 <=? n) && (n <=? 70))%N then Some (n - 55)%N
  else None.

(** [int(s, 16)] on a string of hexadecimal digits; anything else is a
    [ValueError], which shows as [None]. *)
Fixpoint int16_acc (acc : N) (s : string) : option N :=
  match s with
  | "" => Some acc
  | String c s' =>
      match hexval c with
      | Some d => int16_acc (16 * acc + d) s'
      | None => None
      end
  end.

Definition int16 (s : string) : option Z :=
  match s with
  | "" => None
  | _ => option_map Z.of_N (int16_acc 0 s)
  end.

End Py.
Export Py.

(** ** The [json] module: [json.dump(obj, f, ensure_ascii=False, indent=2)]
    and [json.load(f)] *)

Module Json.

Definition dquote : ascii := "034"%char.
Definition backslash : ascii := "092"%char.
Definition newline : ascii := "010"%char.

(** *** Encoder *)

(** Replacement of one character inside a string literal: the quote, the
    backslash and the control characters are escaped, every other byte is
    written as it is ([ensure_ascii=False]). *)
Definition escape_char (c : ascii) : string :=
  let n := N_of_ascii c in
  if Ascii.eqb c dquote then String backslash (String dquote "")
  else if Ascii.eqb c backslash then String backslash (String backslash "")
  else if (n =? 8)%N then String backslash "b"
  else if (n =? 12)%N then String backslash "f"
  else if (n =? 10)%N then String backslash "n"
  else if (n =? 13)%N then String backslash "r"
  else if (n =? 9)%N then String backslash "t"
  else if (n <? 32)%N then
    String backslash
      (String "u" (String "0" (String "0"
        (String (hexdigit (n / 16)) (String (hexdigit (n mod 16)) "")))))
  else String c "".

Fixpoint escape (s : string) : string :=
  match s with
  | "" => ""
  | String c s' => escape_char c +:+ escape s'
  end.

Definition encode_str (s : string) : string :=
  String dquote (escape s +:+ String dquote "").

Fixpoint spaces (n : nat) : string :=
  match n with
  | O => ""
  | S n' => String " " (spaces n')
  end.

(** A line break followed by the indentation of nesting level [lvl]. *)
Definition newline_indent (lvl : nat) : string :=
  String newline (spaces (2 * lvl)).

(** The text of [obj] at nesting level [lvl]. Items of a non-empty list or
    dict each start on a line of their own, one level deeper. *)
Fixpoint encode (lvl : nat) (obj : pyobj) : string :=
  match obj with
  | PyNone => "null"
  | PyBool true => "true"
  | PyBool false => "false"
  | PyInt z => str_int z
  | PyStr s => encode_str s
  | PyList [] => "[]"
  | PyList (x :: xs) =>
      "[" +:+ newline_indent (S lvl) +:+ encode (S lvl) x +:+
      (fix items (l : list pyobj) : string :=
         match l with
         | [] => newline_indent lvl +:+ "]"
         | y :: ys =>
             "," +:+ newline_indent (S lvl) +:+ encode (S lvl) y +:+ items ys
         end) xs
  | PyDict [] => "{}"
  | PyDict ((k, x) :: xs) =>
      "{" +:+ newline_indent (S lvl) +:+ encode_str k +:+ ": " +:+
      encode (S lvl) x +:+
      (fix members (l : list (string * pyobj)) : string :=
         match l with
         | [] => newline_indent lvl +:+ "}"
         | (k', y) :: ys =>
             "," +:+ newline_indent (S lvl) +:+ encode_str k' +:+ ": " +:+
             encode (S lvl) y +:+ members ys
         end) xs
  end.



Definition dumps (obj : pyobj) : string := encode 0 obj.

(** *** Decoder *)

(** Outcome of a scanner: a value and the text left after it, malformed
    text ([JSONDecodeError]), or a construct outside the modelled fragment. *)
Inductive dec (A : Type) : Type :=
| Dec (a : A) (rest : string)
| Bad
| Outside.
Arguments Dec {A} a rest.
Arguments Bad {A}.
Arguments Outside {A}.

Definition dec_map {A B : Type} (f : A -> B) (d : dec A) : dec B :=
  match d with
  | Dec a rest => Dec (f a) rest
  | Bad => Bad
  | Outside => Outside
  end.

Definition is_ws (c : ascii) : bool :=
  let n := N_of_ascii c in
  ((n =? 32) || (n =? 9) || (n =? 10) || (n =? 13))%N.

Fixpoint skip_ws (s : string) : string :=
  match s with
  | "" => ""
  | String c s' => if is_ws c then skip_ws s' else s
  end.

(** The character an escape letter stands for. *)
Definition unescape (e : ascii) : option ascii :=
  if Ascii.eqb e dquote then Some dquote
  else if Ascii.eqb e backslash then Some backslash
  else if Ascii.eqb e "/" then Some "/"%char
  else if Ascii.eqb e "b" then Some "008"%char
  else if Ascii.eqb e "f" then Some "012"%char
  else if Ascii.eqb e "n" then Some "010"%char
  else if Ascii.eqb e "r" then Some "013"%char
  else if Ascii.eqb e "t" then Some "009"%char
  else None.

Definition hex4 (h1 h2 h3 h4 : ascii) : option N :=
  match hexval h1, hexval h2, hexval h3, hexval h4 with
  | Some a, Some b, Some c, Some d => Some (((a * 16 + b) * 16 + c) * 16 + d)%N
  | _, _, _, _ => None
  end.

(** UTF-8 bytes of a code point. *)
Definition utf8 (cp : N) : string :=
  let b (n : N) := ascii_of_N n in
  (if cp <? 128 then String (b cp) ""
   else if cp <? 2048 then
     String (b (192 + cp / 64)) (String (b (128 + cp mod 64)) "")
   else if cp <? 65536 then
     String (b (224 + cp / 4096))
       (String (b (128 + (cp / 64) mod 64)) (String (b (128 + cp mod 64)) ""))
   else
     String (b (240 + cp / 262144))
       (String (b (128 + (cp / 4096) mod 64))
         (String (b (128 + (cp / 64) mod 64))
           (String (b (128 + cp mod 64)) ""))))%N.

Definition is_high_surrogate (u : N) : bool := ((55296 <=? u) && (u <=? 56319))%N.
Definition is_low_surrogate (u : N) : bool := ((56320 <=? u) && (u <=? 57343))%N.

Definition push (pre : string) (d : dec string) : dec string :=
  dec_map (fun s => pre +:+ s) d.

(** [scanstring] (strict): the text after an opening quote, up to the
    closing one. *)
Fixpoint scanstring (s : string) : dec string :=
  match s with
  | "" => Bad
  | String c s1 =>
      if Ascii.eqb c dquote then Dec "" s1
      else if Ascii.eqb c backslash then
        match s1 with
        | "" => Bad
        | String e s2 =>
            if Ascii.eqb e "u" then
              match s2 with
              | String h1 (String h2 (String h3 (String h4 s3))) =>
                  match hex4 h1 h2 h3 h4 with
                  | None => Bad
                  | Some uni =>
                      if is_high_surrogate uni then
                        match s3 with
                        | String b1 (String b2 s4) =>
                            if Ascii.eqb b1 backslash && Ascii.eqb b2 "u" then
                              match s4 with
                              | String l1 (String l2 (String l3 (String l4 s5))) =>
                                  match hex4 l1 l2 l3 l4 with
                                  | None => Bad
                                  | Some uni2 =>
                                      if is_low_surrogate uni2 then
                                        push (utf8 (65536 + (uni - 55296) * 1024
                                                    + (uni2 - 56320))%N)
                                             (scanstring s5)
                                      else Outside
                                  end
                              | _ => Bad
                              end
                            else Outside
                        | _ => Outside
                        end
                      else if is_low_surrogate uni then Outside
                      else push (utf8 uni) (scanstring s3)
                  end
              | _ => Bad
              end
            else
              match unescape e with
              | Some ch => push (String ch "") (scanstring s2)
              | None => Bad
              end
        end
      else if (N_of_ascii c <? 32)%N then Bad
      else push (String c "") (scanstring s1)
  end.

(** Numbers: an optional minus sign, then a single zero or a run of digits
    that does not start with zero, then an optional fraction and an optional
    exponent; with either of the two the number is a float. *)
Definition digit (c : ascii) : option (uint -> uint) :=
  match N_of_ascii c with
  | 48 => Some D0 | 49 => Some D1 | 50 => Some D2 | 51 => Some D3
  | 52 => Some D4 | 53 => Some D5 | 54 => Some D6 | 55 => Some D7
  | 56 => Some D8 | 57 => Some D9
  | _ => None
  end%N.

Definition is_digit (c : ascii) : bool :=
  match digit c with Some _ => true | None => false end.

Fixpoint scan_digits (s : string) : uint * string :=
  match s with
  | "" => (Nil, "")
  | String c s' =>
      match digit c with
      | Some d => let (u, r) := scan_digits s' in (d u, r)
      | None => (Nil, s)
      end
  end.

Definition scan_int (s : string) : option (uint * string) :=
  match s with
  | "" => None
  | String c s' =>
      if Ascii.eqb c "0" then Some (D0 Nil, s')
      else
        match digit c with
        | Some d => let (u, r) := scan_digits s' in Some (d u, r)
        | None => None
        end
  end.

Definition has_frac (s : string) : bool :=
  match s with
  | String c (String d _) => Ascii.eqb c "." && is_digit d
  | _ => false
  end.

Definition has_exp (s : string) : bool :=
  match s with
  | String e (String c t) =>
      (Ascii.eqb e "e" || Ascii.eqb e "E") &&
      (is_digit c ||
       ((Ascii.eqb c "+" || Ascii.eqb c "-") &&
        match t with String d _ => is_digit d | "" => false end))
  | _ => false
  end.

(** [None]: the text does not start with a number. *)
Definition match_number (s : string) : option (dec pyobj) :=
  let '(neg, s1) :=
    match s with
    | String c s' => if Ascii.eqb c "-" then (true, s') else (false, s)
    | "" => (false, s)
    end in
  match scan_int s1 with
  | None => None
  | Some (u, r) =>
      if has_frac r || has_exp r then Some Outside
      else Some (Dec (PyInt (Z.of_int (if neg then Neg u else Pos u))) r)
  end.

Fixpoint strip_prefix (p s : string) : option string :=
  match p, s with
  | "", _ => Some s
  | String a p', String b s' => if Ascii.eqb a b then strip_prefix p' s' else None
  | String _ _, "" => None
  end.

(** Items of a non-empty array; [s] starts at the first item. [n] bounds the
    number of items. *)
Fixpoint array_items (scan : string -> dec pyobj) (n : nat) (s : string)
  : dec (list pyobj) :=
  match n with
  | O => Outside
  | S n' =>
      match scan s with
      | Dec v r =>
          match skip_ws r with
          | String c r' =>
              if Ascii.eqb c "]" then Dec [v] r'
              else if Ascii.eqb c "," then
                dec_map (cons v) (array_items scan n' (skip_ws r'))
              else Bad
          | "" => Bad
          end
      | Bad => Bad
      | Outside => Outside
      end
  end.

(** The text after an opening bracket. *)
Definition parse_array (scan : string -> dec pyobj) (n : nat) (s : string)
  : dec pyobj :=
  match skip_ws s with
  | String c r =>
      if Ascii.eqb c "]" then Dec (PyList []) r
      else dec_map PyList (array_items scan n (String c r))
  | "" => Bad
  end.

(** Members of a non-empty object; [s] starts after the quote that opens
    the first key. *)
Fixpoint object_members (scan : string -> dec pyobj) (n : nat) (s : string)
  : dec (list (string * pyobj)) :=
  match n with
  | O => Outside
  | S n' =>
      match scanstring s with
      | Dec key r =>
          match skip_ws r with
          | String c r1 =>
              if Ascii.eqb c ":" then
                match scan (skip_ws r1) with
                | Dec v r2 =>
                    match skip_ws r2 with
                    | String c2 r3 =>
                        if Ascii.eqb c2 "}" then Dec [(key, v)] r3
                        else if Ascii.eqb c2 "," then
                          match skip_ws r3 with
                          | String q r4 =>
                              if Ascii.eqb q dquote then
                                dec_map (cons (key, v)) (object_members scan n' r4)
                              else Bad
                          | "" => Bad
                          end
                        else Bad
                    | "" => Bad
                    end
                | Bad => Bad
                | Outside => Outside
                end
              else Bad
          | "" => Bad
          end
      | Bad => Bad
      | Outside => Outside
      end
  end.

(** The text after an opening brace. *)
Definition parse_object (scan : string -> dec pyobj) (n : nat) (s : string)
  : dec pyobj :=
  match skip_ws s with
  | String c r =>
      if Ascii.eqb c "}" then Dec (PyDict []) r
      else if Ascii.eqb c dquote then
        dec_map (fun pairs => PyDict (dict_of_pairs pairs)) (object_members scan n r)
      else Bad
  | "" => Bad
  end.

(** One JSON value at the start of [s]. [fuel] bounds the nesting depth and
    the number of items of a container; [loads] passes the length of the
    text. *)
Fixpoint scan_once (fuel : nat) (s : string) : dec pyobj :=
  match fuel with
  | O => Outside
  | S f =>
      match s with
      | "" => Bad
      | String c s' =>
          if Ascii.eqb c dquote then dec_map PyStr (scanstring s')
          else if Ascii.eqb c "{" then parse_object (scan_once f) f s'
          else if Ascii.eqb c "[" then parse_array (scan_once f) f s'
          else
            match strip_prefix "null" s with
            | Some r => Dec PyNone r
            | None =>
            match strip_prefix "true" s with
            | Some r => Dec (PyBool true) r
            | None =>
            match strip_prefix "false" s with
            | Some r => Dec (PyBool false) r
            | None =>
            match match_number s with
            | Some d => d
            | None =>
                if String.prefix "NaN" s || String.prefix "Infinity" s
                   || String.prefix "-Infinity" s
                then Outside else Bad
            end end end end
      end
  end.

(** [json.loads]: one value, surrounded by optional white space. *)
Definition loads (s : string) : result pyobj :=
  match scan_once (S (String.length s)) (skip_ws s) with
  | Dec obj rest =>
      match skip_ws rest with
      | "" => Ok obj
      | String _ _ => Raise JSONDecodeError
      end
  | Bad => Raise JSONDecodeError
  | Outside => Raise Unmodelled
  end.

End Json.

(** ** The process environment: files, entropy, standard output *)

Module Os.

(** What a path that exists holds. *)
Inductive file : Type :=
| Text (content : string)   (* a regular file with UTF-8 text *)
| Undecodable               (* a regular file whose bytes are not UTF-8 *)
| Unreadable.               (* exists, but opening it for reading fails *)

(** What writing a file does: it succeeds; opening the file fails and the
    file is not touched; or the write breaks off (disk full) and leaves
    [residue] behind. *)
Inductive write_mode : Type :=
| WriteOk
| OpenFails
| WriteFails (residue : file).

Record world : Type := mkWorld {
  files : gmap string file;
  disk : write_mode;
  entropy : nat -> Byte.byte;   (* the bytes [os.urandom] hands out *)
  drawn : nat;                  (* how many of them are used up *)
  stdout : list string          (* lines printed so far *)
}.

(** The environment with [f] at [path]. *)
Definition with_file (w : world) (path : string) (f : file) : world :=
  mkWorld (<[path := f]> (files w)) (disk w) (entropy w) (drawn w) (stdout w).

(** The environment after one more printed line. *)
Definition with_line (w : world) (line : string) : world :=
  mkWorld (files w) (disk w) (entropy w) (drawn w) (stdout w ++ [line]).

(** The environment after [n] more bytes of entropy are used up. *)
Definition with_drawn (w : world) (n : nat) : world :=
  mkWorld (files w) (disk w) (entropy w) (drawn w + n)%nat (stdout w).

End Os.
Export Os.

(** ** Record model: class [Book] *)

Module Book.

Record t : Type := mk {
  id : pyobj;
  title : pyobj;
  author : pyobj;
  year : pyobj;
  status : pyobj
}.

(** [book.__dict__]: the attributes in the order [__init__] assigns them. *)
Definition __dict__ (book : t) : pyobj :=
  PyDict [("id", id book); ("title", title book); ("author", author book);
          ("year", year book); ("status", status book)].

(** [book.status = new_status]. *)
Definition set_status (book : t) (new_status : pyobj) : t :=
  mk (id book) (title book) (author book) (year book) new_status.

(** [book.id = new_id]. *)
Definition set_id (book : t) (new_id : pyobj) : t :=
  mk new_id (title book) (author book) (year book) (status book).

End Book.

(** The two status values. *)
Definition available : string := "в наличии".
Definition checked_out : string := "выдана".

(** ** Catalogue store: class [LibraryManagementSystem] *)

Record LibraryManagementSystem : Type := mkLms {
  storage_file : string;
  books : list Book.t
}.

(** A method runs on the store object [self] inside the environment [os];
    it returns or raises, and leaves both in a new state. *)
Record state : Type := mkState {
  self : LibraryManagementSystem;
  os : world
}.

Definition M (A : Type) : Type := state -> result A * state.

#[global] Instance M_ret : MRet M := fun A a s => (Ok a, s).

#[global] Instance M_bind : MBind M := fun A B k m s =>
  match m s with
  | (Ok a, s') => k a s'
  | (Raise e, s') => (Raise e, s')
  end.

Definition raise {A : Type} (e : exn) : M A := fun s => (Raise e, s).

(** Lift the outcome of a pure operation. *)
Definition lift {A : Type} (r : result A) : M A := fun s => (r, s).

(** [try: body except <catches>: handler]. *)
Definition try_except {A : Type} (body : M A) (catches : exn -> bool)
  (handler : M A) : M A := fun s =>
  match body s with
  | (Ok a, s') => (Ok a, s')
  | (Raise e, s') => if catches e then handler s' else (Raise e, s')
  end.

(** A list comprehension whose element expression may raise. *)
Fixpoint for_each {A B : Type} (f : A -> M B) (l : list A) : M (list B) :=
  match l with
  | [] => mret []
  | x :: xs => y ← f x; ys ← for_each f xs; mret (y :: ys)
  end.

(** A list comprehension with a condition that may raise. *)
Fixpoint for_if {A : Type} (cond : A -> result bool) (l : list A)
  : result (list A) :=
  match l with
  | [] => Ok []
  | x :: xs =>
      match cond x with
      | Ok b =>
          match for_if cond xs with
          | Ok ys => Ok (if b then x :: ys else ys)
          | Raise e => Raise e
          end
      | Raise e => Raise e
      end
  end.

Definition get_self : M LibraryManagementSystem := fun s => (Ok (self s), s).

(** [self.books = bs]. *)
Definition set_books (bs : list Book.t) : M unit := fun s =>
  (Ok tt, mkState (mkLms (storage_file (self s)) bs) (os s)).

(** [print(line)]. *)
Definition print (line : string) : M unit := fun s =>
  (Ok tt, mkState (self s) (with_line (os s) line)).

(** [os.urandom(n)]. *)
Definition urandom (n : nat) : M (list Byte.byte) := fun s =>
  let w := os s in
  (Ok (map (entropy w) (seq (drawn w) n)), mkState (self s) (with_drawn w n)).

(** [os.path.exists(path)]. *)
Definition path_exists (path : string) : M bool := fun s =>
  (Ok (bool_decide (is_Some (files (os s) !! path))), s).

(** [open(path, 'r', encoding='utf-8')] followed by [f.read()]. *)
Definition read_text (path : string) : M string := fun s =>
  match files (os s) !! path with
  | Some (Text content) => (Ok content, s)
  | Some Undecodable => (Raise UnicodeDecodeError, s)
  | Some Unreadable => (Raise IOError, s)
  | None => (Raise IOError, s)
  end.

(** [open(path, 'w', encoding='utf-8')], writing [text] and closing. *)
Definition write_text (path text : string) : M unit := fun s =>
  let w := os s in
  let put (f : file) := mkState (self s) (with_file w path f) in
  match disk w with
  | WriteOk => (Ok tt, put (Text text))
  | OpenFails => (Raise IOError, s)
  | WriteFails residue => (Raise IOError, put residue)
  end.

(** [json.load(f)] on the file at [path]. *)
Definition json_load (path : string) : M pyobj :=
  text ← read_text path; lift (Json.loads text).

(** [json.dump(obj, f, ensure_ascii=False, indent=2)] on the file at [path]. *)
Definition json_dump (obj : pyobj) (path : string) : M unit :=
  write_text path (Json.dumps obj).

(** [Book.generate_unique_id]: [int(os.urandom(4).hex(), 16)]. *)
Definition generate_unique_id : M Z :=
  bs ← urandom 4;
  match int16 (hex bs) with
  | Some n => mret n
  | None => raise ValueError
  end.

(** [Book.__init__]. *)
Definition Book__init__ (title author year : pyobj) : M Book.t :=
  id ← generate_unique_id;
  mret (Book.mk (PyInt id) title author year (PyStr available)).

(** [LibraryManagementSystem._dict_to_book]. *)
Definition _dict_to_book (book_dict : pyobj) : M Book.t :=
  title ← lift (getitem book_dict "title");
  author ← lift (getitem book_dict "author");
  year ← lift (getitem book_dict "year");
  book ← Book__init__ title author year;
  id ← lift (getitem book_dict "id");
  let book := Book.set_id book id in
  status ← lift (getitem book_dict "status");
  let book := Book.set_status book status in
  mret book.

Definition read_warning : string :=
  "Ошибка при чтении файла. Создается новая библиотека.".
Definition save_warning : string := "Ошибка при сохранении книг.".

(** [LibraryManagementSystem.load_books]. *)
Definition load_books : M (list Book.t) :=
  self ← get_self;
  found ← path_exists (storage_file self);
  if negb found then mret []
  else
    try_except
      (book_data ← json_load (storage_file self);
       items ← lift (iterate book_data);
       for_each _dict_to_book items)
      (fun e => match e with JSONDecodeError | IOError => true | _ => false end)
      (print read_warning;; mret []).

(** [LibraryManagementSystem.__init__]: the store object after construction,
    or the exception that ended it. [books] does not exist as an attribute
    until [load_books] has returned. *)
Definition __init__ (storage_file : string) (w : world)
  : result LibraryManagementSystem * world :=
  match (bs ← load_books; set_books bs) (mkState (mkLms storage_file []) w) with
  | (Ok _, s) => (Ok (self s), os s)
  | (Raise e, s) => (Raise e, os s)
  end.

(** [LibraryManagementSystem.save_books]. *)
Definition save_books : M unit :=
  self ← get_self;
  try_except
    (json_dump (PyList (map Book.__dict__ (books self))) (storage_file self))
    (fun e => match e with IOError => true | _ => false end)
    (print save_warning).

(** [LibraryManagementSystem.add_book]. *)
Definition add_book (title author : string) (year : Z) : M Book.t :=
  new_book ← Book__init__ (PyStr title) (PyStr author) (PyInt year);
  self ← get_self;
  set_books (books self ++ [new_book]);;
  save_books;;
  mret new_book.

(** [LibraryManagementSystem.remove_book]. *)
Definition remove_book (book_id : Z) : M bool :=
  self ← get_self;
  let initial_length := length (books self) in
  set_books (List.filter (fun book => negb (eq_int (Book.id book) book_id))
               (books self));;
  self ← get_self;
  if (length (books self) <? initial_length)%nat
  then save_books;; mret true
  else mret false.

(** The loop of [update_book_status]: assign the status of the first book
    with the id; [None] when the loop ends without a match. *)
Fixpoint assign_status (book_id : Z) (new_status : string) (bs : list Book.t)
  : option (list Book.t) :=
  match bs with
  | [] => None
  | book :: rest =>
      if eq_int (Book.id book) book_id
      then Some (Book.set_status book (PyStr new_status) :: rest)
      else option_map (cons book) (assign_status book_id new_status rest)
  end.

(** [LibraryManagementSystem.update_book_status]. *)
Definition update_book_status (book_id : Z) (new_status : string) : M bool :=
  if negb (String.eqb new_status available || String.eqb new_status checked_out)
  then mret false
  else
    self ← get_self;
    match assign_status book_id new_status (books self) with
    | Some bs => set_books bs;; save_books;; mret true
    | None => mret false
    end.

(** [search_books] uses two builtins that are taken as parameters:
    [str.lower], whose result depends on the Unicode character database,
    and the [repr] of a list or dict, which [str] falls back on. *)
Section Search.

Variable lower : string -> string.
Variable repr : pyobj -> string.

(** [str(obj)]. *)
Definition str (obj : pyobj) : string :=
  match obj with
  | PyStr s => s
  | PyInt z => str_int z
  | PyBool true => "True"
  | PyBool false => "False"
  | PyNone => "None"
  | PyList _ | PyDict _ => repr obj
  end.

(** [obj.lower()]: only a [str] has the method. *)
Definition lower_method (obj : pyobj) : result string :=
  match obj with
  | PyStr s => Ok (lower s)
  | _ => Raise AttributeError
  end.

(** The condition [query in obj.lower()]. *)
Definition query_in_lower (query : string) (obj : pyobj) : result bool :=
  match lower_method obj with
  | Ok text => Ok (contains query text)
  | Raise e => Raise e
  end.

(** [LibraryManagementSystem.search_books]. *)
Definition search_books (query search_type : string) : M (list Book.t) :=
  let query := lower query in
  self ← get_self;
  if String.eqb search_type "title" then
    lift (for_if (fun book => query_in_lower query (Book.title book)) (books self))
  else if String.eqb search_type "author" then
    lift (for_if (fun book => query_in_lower query (Book.author book)) (books self))
  else if String.eqb search_type "year" then
    mret (List.filter (fun book => String.eqb query (str (Book.year book)))
            (books self))
  else mret [].

End Search.

(** The ASCII part of [str.lower], to run the definitions on examples whose
    text is ASCII. *)
Definition ascii_lower_char (c : ascii) : ascii :=
  let n := N_of_ascii c in
  if ((65 <=? n) && (n <=? 90))%N then ascii_of_N (n + 32) else c.

Fixpoint ascii_lower (s : string) : string :=
  match s with
  | "" => ""
  | String c s' => String (ascii_lower_char c) (ascii_lower s')
  end.

(** A stand-in for the [repr] of containers in examples without any. *)
Definition no_repr (obj : pyobj) : string := "".


(** ** Listing the catalogue and the menu loop: [display_books], [main] *)

(** Besides [str.lower] and the [repr] of containers, the menu loop uses
    two more builtins taken as parameters: [int] on a string ([None] stands
    for [ValueError]) and the text [str] gives for an exception. *)

(** What can end a statement of [main]: an exception of the store, or
    [EOFError] from [input] when the input has run out. *)
Inductive error : Type :=
| StoreError (e : exn)
| EOFError.

Inductive outcome (A : Type) : Type :=
| Done (a : A)
| Failed (e : error).
Arguments Done {A} a.
Arguments Failed {A} e.

(** The state of a session: the store in its environment, and the lines
    still to be read from standard input. *)
Record session : Type := mkSession {
  store : state;
  stdin : list string
}.

Definition Cli (A : Type) : Type := session -> outcome A * session.

#[global] Instance Cli_ret : MRet Cli := fun A a ss => (Done a, ss).

#[global] Instance Cli_bind : MBind Cli := fun A B k m ss =>
  match m ss with
  | (Done a, ss') => k a ss'
  | (Failed e, ss') => (Failed e, ss')
  end.

(** A method of the store, called from the loop. *)
Definition call {A : Type} (m : M A) : Cli A := fun ss =>
  match m (store ss) with
  | (Ok a, s') => (Done a, mkSession s' (stdin ss))
  | (Raise e, s') => (Failed (StoreError e), mkSession s' (stdin ss))
  end.

(** [input(prompt)]: the prompt goes to standard output (recorded as an
    entry of its own), then one line is read. *)
Definition input (prompt : string) : Cli string := fun ss =>
  let s' := snd (print prompt (store ss)) in
  match stdin ss with
  | [] => (Failed EOFError, mkSession s' [])
  | line :: rest => (Done line, mkSession s' rest)
  end.

(** [except ValueError] catches the class and its subclasses. *)
Definition is_ValueError (e : error) : bool :=
  match e with
  | StoreError ValueError | StoreError JSONDecodeError
  | StoreError UnicodeDecodeError => true
  | _ => false
  end.

(** [except Exception] catches every Python exception. *)
Definition is_Exception (e : error) : bool :=
  match e with
  | StoreError Unmodelled => false
  | _ => true
  end.

(** [for x in l: print(line(x))]. *)
Fixpoint print_each {A : Type} (line : A -> string) (l : list A) : M unit :=
  match l with
  | [] => mret tt
  | x :: xs => print (line x);; print_each line xs
  end.

Section Menu.

Variable lower : string -> string.
Variable repr : pyobj -> string.
Variable int_of_str : string -> option Z.
Variable str_of_error : error -> string.

(** The line [display_books] prints for a record. *)
Definition display_line (book : Book.t) : string :=
  "ID: " +:+ str repr (Book.id book) +:+
  ", Название: " +:+ str repr (Book.title book) +:+
  ", Автор: " +:+ str repr (Book.author book) +:+
  ", Год: " +:+ str repr (Book.year book) +:+
  ", Статус: " +:+ str repr (Book.status book).

(** [LibraryManagementSystem.display_books]. *)
Definition display_books : M unit :=
  self ← get_self;
  match books self with
  | [] => print "Библиотека пуста."
  | _ :: _ => print_each display_line (books self)
  end.

(** The line the search action prints for a record found. *)
Definition found_line (book : Book.t) : string :=
  "ID: " +:+ str repr (Book.id book) +:+
  ", Название: " +:+ str repr (Book.title book) +:+
  ", Автор: " +:+ str repr (Book.author book).

(** [int(input(prompt))]. *)
Definition input_int (prompt : string) : Cli Z :=
  text ← input prompt;
  match int_of_str text with
  | Some n => mret n
  | None => fun ss => (Failed (StoreError ValueError), ss)
  end.

Definition menu : list string :=
  [String Json.newline "--- Система управления библиотекой ---";
   "1. Добавить книгу"; "2. Удалить книгу"; "3. Найти книгу";
   "4. Показать все книги"; "5. Изменить статус книги"; "6. Выйти"].

(** The body of the [try] statement; the result tells whether the loop
    is left ([break]). *)
Definition action (choice : string) : Cli bool :=
  if String.eqb choice "1" then
    title ← input "Введите название книги: ";
    author ← input "Введите автора книги: ";
    year ← input_int "Введите год издания: ";
    book ← call (add_book title author year);
    call (print ("Книга добавлена. ID книги: " +:+ str repr (Book.id book)));;
    mret false
  else if String.eqb choice "2" then
    book_id ← input_int "Введите ID книги для удаления: ";
    removed ← call (remove_book book_id);
    (if removed : bool then call (print "Книга успешно удалена.")
     else call (print "Книга не найдена."));;
    mret false
  else if String.eqb choice "3" then
    search_type ← input "Искать по (title/author/year): ";
    query ← input "Введите поисковый запрос: ";
    results ← call (search_books lower repr query search_type);
    match results with
    | _ :: _ =>
        call (print "Найденные книги:");;
        call (print_each found_line results);;
        mret false
    | [] => call (print "Книги не найдены.");; mret false
    end
  else if String.eqb choice "4" then
    call display_books;; mret false
  else if String.eqb choice "5" then
    book_id ← input_int "Введите ID книги: ";
    new_status ← input "Введите новый статус (в наличии/выдана): ";
    updated ← call (update_book_status book_id new_status);
    (if updated : bool then call (print "Статус книги обновлен.")
     else call (print "Не удалось обновить статус."));;
    mret false
  else if String.eqb choice "6" then
    call (print "Завершение работы...");; mret true
  else
    call (print "Неверный выбор. Попробуйте снова.");; mret false.

(** The [try] statement: the action under its two handlers. *)
Definition try_action (choice : string) : Cli bool := fun ss =>
  match action choice ss with
  | (Done stop, ss') => (Done stop, ss')
  | (Failed e, ss') =>
      if is_ValueError e then
        (call (print "Введены некорректные данные. Попробуйте снова.");;
         mret false) ss'
      else if is_Exception e then
        (call (print ("Произошла ошибка: " +:+ str_of_error e));;
         mret false) ss'
      else (Failed e, ss')
  end.

(** One pass through the body of [while True]: the menu, the choice, and
    the [try] statement. *)
Definition iteration : Cli bool :=
  call (print_each (fun line => line) menu);;
  choice ← input "Выберите действие: ";
  try_action choice.

(** [while True: ...]. [None]: the bound [fuel] on the number of passes
    was too small. *)
Fixpoint loop (fuel : nat) (ss : session) : option (outcome unit * session) :=
  match fuel with
  | O => None
  | S fuel' =>
      match iteration ss with
      | (Done true, ss') => Some (Done tt, ss')
      | (Done false, ss') => loop fuel' ss'
      | (Failed e, ss') => Some (Failed e, ss')
      end
  end.


End Menu.

(** ** Auxiliary definitions for the statements *)

Import Json.





(** The integer four bytes spell, most significant byte first. *)
Definition be32 (b0 b1 b2 b3 : Byte.byte) : Z :=
  Z.of_N (((Byte.to_N b0 * 256 + Byte.to_N b1) * 256 + Byte.to_N b2) * 256
          + Byte.to_N b3).

(** The four bytes the next call of [os.urandom(4)] returns. *)
Definition next_id (w : world) : Z :=
  be32 (entropy w (drawn w)) (entropy w (S (drawn w)))
       (entropy w (S (S (drawn w)))) (entropy w (S (S (S (drawn w))))).

(** The environment after a draw of four bytes. *)
Definition after_draw (w : world) : world := with_drawn w 4.

(** The store with another collection, everything else the same. *)
Definition with_books (s : state) (bs : list Book.t) : state :=
  mkState (mkLms (storage_file (self s)) bs) (os s).

(** The document [save_books] writes for a collection. *)
Definition document (bs : list Book.t) : pyobj := PyList (map Book.__dict__ bs).

Definition matches (book_id : Z) (book : Book.t) : bool :=
  eq_int (Book.id book) book_id.


Definition path : string := "library_books.json".

Definition dune : Book.t :=
  Book.mk (PyInt 7) (PyStr "Dune") (PyStr "Herbert") (PyInt 1965) (PyStr available).
Definition dune_messiah : Book.t :=
  Book.mk (PyInt 7) (PyStr "Dune Messiah") (PyStr "Herbert") (PyInt 1969)
    (PyStr available).
Definition emma : Book.t :=
  Book.mk (PyInt 255) (PyStr "Emma") (PyStr "Austen") (PyInt 1815) (PyStr available).

(** An entropy source whose every draw of four bytes spells 7. *)
Definition sevens (n : nat) : Byte.byte :=
  if (n mod 4 =? 3)%nat then Byte.x07 else Byte.x00.

Definition world_of (fs : gmap string file) (d : write_mode) : world :=
  mkWorld fs d sevens 0 [].

(** A store holding [bs], nothing on disk yet. *)
Definition shelf (bs : list Book.t) (d : write_mode) : state :=
  mkState (mkLms path bs) (world_of ∅ d).



Definition recoverable (e : exn) : bool :=
  match e with JSONDecodeError | IOError => true | _ => false end.

(** A string literal of a JSON document. *)
Definition quoted (s : string) : string :=
  String Json.dquote (s +:+ String Json.dquote "").

(** A document written by hand that lacks every field but the title:
    well-formed JSON, not a list of complete records. *)
Definition title_only : string :=
  "[{" +:+ quoted "title" +:+ ": " +:+ quoted "Dune" +:+ "}]".

(** Text that is not JSON at all. *)
Definition garbage : string := "[{" +:+ quoted "title" +:+ ": ".




Definition is_str (obj : pyobj) : Prop := exists text, obj = PyStr text.




(** The status is one of the two enumerated values. *)
Definition valid_status (book : Book.t) : Prop :=
  Book.status book = PyStr available \/ Book.status book = PyStr checked_out.


(** The dict [d] has the five fields of [book], under their names. *)
Definition complete (d : pyobj) (book : Book.t) : Prop :=
  exists l,
    d = PyDict l
    /\ dict_get l "title" = Some (Book.title book)
    /\ dict_get l "author" = Some (Book.author book)
    /\ dict_get l "year" = Some (Book.year book)
    /\ dict_get l "id" = Some (Book.id book)
    /\ dict_get l "status" = Some (Book.status book).

(** The first field, in the order [_dict_to_book] reads them, that a dict
    lacks. *)
Definition first_missing (l : list (string * pyobj)) : option string :=
  List.find (fun key => match dict_get l key with Some _ => false | None => true end)
    ["title"; "author"; "year"; "id"; "status"].

(** A record written by hand: the keys in another order, one key more, a
    status outside the enumeration. *)
Definition lost_record : pyobj :=
  PyDict [("status", PyStr "lost"); ("shelf", PyInt 3); ("year", PyInt 1965);
          ("id", PyInt 7); ("author", PyStr "Herbert"); ("title", PyStr "Dune")].

Definition lost_dune : Book.t :=
  Book.mk (PyInt 7) (PyStr "Dune") (PyStr "Herbert") (PyInt 1965) (PyStr "lost").

Definition valid_status_name (new_status : string) : bool :=
  String.eqb new_status available || String.eqb new_status checked_out.

Definition untitled : Book.t :=
  Book.mk (PyInt 9) PyNone (PyStr "Anonymous") (PyInt 1900) (PyStr available).

(** The environment after several more printed lines. *)
Definition with_lines (w : world) (lines : list string) : world :=
  mkWorld (files w) (disk w) (entropy w) (drawn w) (stdout w ++ lines).

(** The same catalogue, in memory and on disk. *)
Definition same_catalogue (s s' : state) : Prop :=
  self s' = self s /\ files (os s') = files (os s) /\ drawn (os s') = drawn (os s).

(** A statement of the loop that moves the store along [R], only uses up
    input, and ends with a result in [Q] or with a Python exception. *)
Definition obeys {A : Type} (R : state -> state -> Prop) (Q : A -> Prop)
  (c : Cli A) : Prop :=
  forall ss,
    R (store ss) (store (snd (c ss)))
    /\ suffix (stdin (snd (c ss))) (stdin ss)
    /\ match fst (c ss) with
       | Done a => Q a
       | Failed e => is_Exception e = true
       end.

(** The relations on stores the loop is measured against: reflexive and
    transitive, and not affected by printing. *)
Definition frame (R : state -> state -> Prop) : Prop :=
  (forall s, R s s)
  /\ (forall s1 s2 s3, R s1 s2 -> R s2 s3 -> R s1 s3)
  /\ (forall s line, R s (mkState (self s) (with_line (os s) line))).

Definition anything (s s' : state) : Prop := True.

(** Only choice 6 asks to leave the loop. *)
Definition leaves_only_on_6 (choice : string) (stop : bool) : Prop :=
  stop = true -> choice = "6".

(** A stand-in for [int] on the digits used in the examples, and for the
    text of an exception. *)
Definition int_of_digits (text : string) : option Z :=
  match NilZero.int_of_string text with
  | Some d => if String.eqb text "" then None else Some (Z.of_int d)
  | None => None
  end.

Definition some_error_text (e : error) : string := "error".

(** The session after [lines] were printed and [rest] is left to read. *)
Definition printed (ss : session) (lines rest : list string) : session :=
  mkSession (mkState (self (store ss)) (with_lines (os (store ss)) lines)) rest.

(** ** Facts *)

#[local] Arguments String.append !s1 s2 : simpl nomatch.

Lemma app_assoc_s (a b c : string) : (a +:+ b) +:+ c = a +:+ (b +:+ c).
Proof. induction a as [|x a IH]; simpl; [reflexivity | now rewrite IH]. Qed.




Lemma push_push a b d : push a (push b d) = push (a +:+ b) d.
Proof. destruct d; simpl; try reflexivity. now rewrite app_assoc_s. Qed.




























(** Unfold the monad of methods. *)
Ltac unfold_M :=
  unfold json_load, json_dump;
  unfold mbind, M_bind, mret, M_ret, raise, lift, try_except, get_self,
    set_books, print, path_exists, read_text, write_text.

Lemma hexval_hexdigit (d : N) : (d < 16)%N -> hexval (hexdigit d) = Some d.
Proof.
  intros H.
  assert (E : In d (map N.of_nat (seq 0 16))).
  { apply in_map_iff. exists (N.to_nat d). split; [lia|]. apply in_seq. lia. }
  cbn in E. repeat (destruct E as [<-|E]; [reflexivity|]). contradiction.
Qed.

Lemma int16_acc_hex_byte (b : Byte.byte) (acc : N) (t : string) :
  int16_acc acc (hex_byte b +:+ t) = int16_acc (256 * acc + Byte.to_N b) t.
Proof.
  pose proof (Byte.to_N_bounded b) as Hb.
  unfold hex_byte. cbn [String.append int16_acc].
  assert (Hq : (Byte.to_N b / 16 < 16)%N)
    by (apply N.Div0.div_lt_upper_bound; lia).
  assert (Hr : (Byte.to_N b mod 16 < 16)%N) by (apply N.mod_lt; lia).
  rewrite (hexval_hexdigit _ Hq), (hexval_hexdigit _ Hr).
  f_equal. pose proof (N.div_mod (Byte.to_N b) 16 ltac:(lia)). lia.
Qed.

Lemma int16_hex4 (b0 b1 b2 b3 : Byte.byte) :
  int16 (hex [b0; b1; b2; b3]) = Some (be32 b0 b1 b2 b3).
Proof.
  unfold int16, hex, be32. cbn [fold_right].
  assert (E : hex_byte b0 +:+ hex_byte b1 +:+ hex_byte b2 +:+ hex_byte b3 +:+ ""
              = String (hexdigit (Byte.to_N b0 / 16))
                  (String (hexdigit (Byte.to_N b0 mod 16)) ""
                   +:+ hex_byte b1 +:+ hex_byte b2 +:+ hex_byte b3 +:+ ""))
    by reflexivity.
  rewrite E at 1. rewrite !int16_acc_hex_byte. cbn [int16_acc option_map].
  f_equal. f_equal. lia.
Qed.

Lemma be32_range (b0 b1 b2 b3 : Byte.byte) : 0 <= be32 b0 b1 b2 b3 < 2 ^ 32.
Proof.
  unfold be32.
  pose proof (Byte.to_N_bounded b0). pose proof (Byte.to_N_bounded b1).
  pose proof (Byte.to_N_bounded b2). pose proof (Byte.to_N_bounded b3).
  change (2 ^ 32) with 4294967296. lia.
Qed.

Lemma generate_unique_id_run (s : state) :
  generate_unique_id s = (Ok (next_id (os s)), mkState (self s) (after_draw (os s))).
Proof.
  unfold generate_unique_id, urandom. unfold_M. cbn [seq map].
  rewrite int16_hex4. reflexivity.
Qed.

Lemma Book__init__run (title author year : pyobj) (s : state) :
  Book__init__ title author year s
  = (Ok (Book.mk (PyInt (next_id (os s))) title author year (PyStr available)),
     mkState (self s) (after_draw (os s))).
Proof.
  unfold Book__init__. unfold_M. rewrite generate_unique_id_run. reflexivity.
Qed.

(** [save_books], case by case on what the disk does. *)
Lemma save_books_run (s : state) :
  save_books s =
  (Ok tt,
   mkState (self s)
     match disk (os s) with
     | WriteOk =>
         with_file (os s) (storage_file (self s))
           (Text (Json.dumps (document (books (self s)))))
     | OpenFails => with_line (os s) save_warning
     | WriteFails residue =>
         with_line (with_file (os s) (storage_file (self s)) residue) save_warning
     end).
Proof.
  unfold save_books. unfold_M. destruct s as [[path bs] w].
  cbn [self os storage_file books]. unfold document.
  destruct (disk w); reflexivity.
Qed.

Lemma save_books_self (s : state) : self (snd (save_books s)) = self s.
Proof. rewrite save_books_run. reflexivity. Qed.

Lemma save_books_ok (s : state) : fst (save_books s) = Ok tt.
Proof. rewrite save_books_run. reflexivity. Qed.

(** *** remove_book *)

Lemma filter_length_lt {A} (f : A -> bool) (l : list A) :
  (length (List.filter f l) <? length l)%nat = existsb (fun x => negb (f x)) l.
Proof.
  induction l as [|x l IH]; [reflexivity|]. cbn [List.filter existsb length].
  pose proof (List.filter_length_le f l) as Hle.
  destruct (f x); cbn [negb orb length].
  - exact IH.
  - apply Nat.ltb_lt. lia.
Qed.

Lemma filter_all {A} (f : A -> bool) (l : list A) :
  existsb (fun x => negb (f x)) l = false -> List.filter f l = l.
Proof.
  induction l as [|x l IH]; [reflexivity|]. cbn [List.filter existsb].
  intros H. apply orb_false_iff in H as [Hx Hl]. apply negb_false_iff in Hx.
  rewrite Hx. f_equal. auto.
Qed.

Lemma remove_book_run (book_id : Z) (s : state) :
  let kept := List.filter (fun book => negb (matches book_id book)) (books (self s)) in
  remove_book book_id s =
  if existsb (matches book_id) (books (self s))
  then (Ok true, snd (save_books (with_books s kept)))
  else (Ok false, s).
Proof.
  intros kept. unfold remove_book. unfold_M. cbn [self books].
  fold (matches book_id). change (List.filter _ _) with kept.
  unfold kept at 1. rewrite filter_length_lt.
  assert (E : existsb (fun x => negb (negb (matches book_id x))) (books (self s))
              = existsb (matches book_id) (books (self s))).
  { generalize (books (self s)). intros l.
    induction l as [|x l IH]; [reflexivity|]. cbn [existsb].
    now rewrite negb_involutive, IH. }
  rewrite E. clear E.
  destruct (existsb (matches book_id) (books (self s))) eqn:Hex; cbn beta iota.
  - fold (with_books s kept). rewrite save_books_run. reflexivity.
  - unfold kept. rewrite filter_all.
    + destruct s as [[path bs] w]. reflexivity.
    + rewrite <- Hex. generalize (books (self s)). intros l.
      induction l as [|x l IH]; [reflexivity|]. cbn [existsb].
      now rewrite negb_involutive, IH.
Qed.

(** C9. Whatever four bytes the entropy source hands out, the record is
    created with the integer they spell (most significant byte first) as
    its id, and that integer lies in the range 0 <= id < 2^32. *)
Theorem generated_id_range (title author year : pyobj) (s : state) :
  fst (Book__init__ title author year s)
  = Ok (Book.mk (PyInt (next_id (os s))) title author year (PyStr available))
  /\ fst (generate_unique_id s) = Ok (next_id (os s))
  /\ 0 <= next_id (os s) < 2 ^ 32.
Proof.
  rewrite Book__init__run, generate_unique_id_run.
  repeat split; apply be32_range.
Qed.

(** C4. A status outside the two enumerated values is rejected: the call
    returns [False] and the whole state (every record, the file system, the
    output) is what it was. *)
Theorem update_invalid_status_rejected (book_id : Z) (new_status : string)
  (s : state) :
  new_status <> available -> new_status <> checked_out ->
  update_book_status book_id new_status s = (Ok false, s).
Proof.
  intros Ha Hc. unfold update_book_status.
  apply String.eqb_neq in Ha, Hc. rewrite Ha, Hc. reflexivity.
Qed.

Lemma update_invalid_status_rejected_witness :
  update_book_status 7 "lost" (shelf [dune; emma] WriteOk)
  = (Ok false, shelf [dune; emma] WriteOk).
Proof.
  apply update_invalid_status_rejected; discriminate.
Defined.

Lemma assign_status_first (book_id : Z) (new_status : string)
  (pre rest : list Book.t) (first : Book.t) :
  existsb (matches book_id) pre = false ->
  matches book_id first = true ->
  assign_status book_id new_status (pre ++ first :: rest)
  = Some (pre ++ Book.set_status first (PyStr new_status) :: rest).
Proof.
  intros Hpre Hfirst. induction pre as [|b pre IH]; cbn [assign_status app].
  - unfold matches in Hfirst. now rewrite Hfirst.
  - cbn [existsb] in Hpre. apply orb_false_iff in Hpre as [Hb Hpre].
    unfold matches in Hb. rewrite Hb, (IH Hpre). reflexivity.
Qed.

Lemma update_book_status_found (book_id : Z) (new_status : string) (s : state)
  (bs : list Book.t) :
  new_status = available \/ new_status = checked_out ->
  assign_status book_id new_status (books (self s)) = Some bs ->
  update_book_status book_id new_status s
  = (Ok true, snd (save_books (with_books s bs))).
Proof.
  intros Hst Hassign. unfold update_book_status.
  assert (E : String.eqb new_status available || String.eqb new_status checked_out
              = true).
  { destruct Hst as [-> | ->]; rewrite String.eqb_refl; [reflexivity|].
    apply orb_true_r. }
  rewrite E. cbn [negb]. unfold_M. rewrite Hassign.
  fold (with_books s bs). rewrite save_books_run. reflexivity.
Qed.

(** C10. With two (or more) records sharing the id, a valid status update
    assigns the status of the first of them only: every other record,
    among them every later record with the same id, and every other field
    of the first one stay as they were; the call persists and returns
    [True]. *)
Theorem update_first_match_only (book_id : Z) (new_status : string) (s : state)
  (pre mid post : list Book.t) (first later : Book.t) :
  new_status = available \/ new_status = checked_out ->
  books (self s) = pre ++ first :: mid ++ later :: post ->
  existsb (matches book_id) pre = false ->
  matches book_id first = true ->
  matches book_id later = true ->
  let first' := Book.set_status first (PyStr new_status) in
  let updated := pre ++ first' :: mid ++ later :: post in
  update_book_status book_id new_status s
  = (Ok true, snd (save_books (with_books s updated)))
  /\ books (self (snd (update_book_status book_id new_status s))) = updated
  /\ Book.status first' = PyStr new_status
  /\ Book.id first' = Book.id first /\ Book.title first' = Book.title first
  /\ Book.author first' = Book.author first /\ Book.year first' = Book.year first.
Proof.
  intros Hst Hbooks Hpre Hfirst Hlater first' updated.
  assert (Hrun : update_book_status book_id new_status s
                 = (Ok true, snd (save_books (with_books s updated)))).
  { apply update_book_status_found; [exact Hst|].
    rewrite Hbooks. now apply assign_status_first. }
  split; [exact Hrun|]. rewrite Hrun. cbn [snd].
  rewrite save_books_self. repeat split.
Qed.

Lemma update_first_match_only_witness :
  update_book_status 7 checked_out (shelf [emma; dune; emma; dune_messiah] WriteOk)
  = (Ok true,
     snd (save_books
            (with_books (shelf [emma; dune; emma; dune_messiah] WriteOk)
               [emma; Book.set_status dune (PyStr checked_out); emma;
                dune_messiah]))).
Proof.
  apply (update_first_match_only 7 checked_out
           (shelf [emma; dune; emma; dune_messiah] WriteOk)
           [emma] [emma] [] dune dune_messiah);
    [right; reflexivity | reflexivity | reflexivity | reflexivity | reflexivity].
Defined.





Lemma add_book_run (title author : string) (year : Z) (s : state) :
  let new_book :=
    Book.mk (PyInt (next_id (os s))) (PyStr title) (PyStr author) (PyInt year)
      (PyStr available) in
  add_book title author year s
  = (Ok new_book,
     snd (save_books (mkState (mkLms (storage_file (self s))
                                     (books (self s) ++ [new_book]))
                              (after_draw (os s))))).
Proof.
  intros new_book. unfold add_book.
  unfold mbind at 1. unfold M_bind. rewrite Book__init__run. fold new_book.
  unfold_M. cbn [self os books storage_file].
  rewrite save_books_run. reflexivity.
Qed.





(** C8, as the code has it. When the write fails, [save_books] prints its
    error message and returns normally, exactly as after a successful
    write; the store object, and with it the in-memory collection, is
    untouched. *)
Theorem save_failure_swallowed (s : state) :
  disk (os s) <> WriteOk ->
  fst (save_books s) = Ok tt
  /\ self (snd (save_books s)) = self s
  /\ stdout (os (snd (save_books s))) = stdout (os s) ++ [save_warning].
Proof.
  intros Hdisk. rewrite save_books_run. cbn [fst snd self os].
  repeat split. destruct (disk (os s)); [contradiction | reflexivity | reflexivity].
Qed.

Lemma save_failure_swallowed_witness :
  fst (save_books (shelf [dune] OpenFails)) = Ok tt
  /\ self (snd (save_books (shelf [dune] OpenFails))) = self (shelf [dune] OpenFails)
  /\ stdout (os (snd (save_books (shelf [dune] OpenFails))))
     = stdout (os (shelf [dune] OpenFails)) ++ [save_warning].
Proof.
  apply save_failure_swallowed. discriminate.
Defined.

(** C8, as stated, fails: on a disk that refuses the write, [save_books]
    returns what it returns on a disk that takes it, and [remove_book],
    which calls it, reports success. *)
Lemma save_failure_not_reported_cex :
  disk (os (shelf [dune] OpenFails)) = OpenFails
  /\ fst (save_books (shelf [dune] OpenFails)) = Ok tt
  /\ fst (save_books (shelf [dune] OpenFails)) = fst (save_books (shelf [dune] WriteOk))
  /\ fst (remove_book 7 (shelf [dune] OpenFails)) = Ok true
  /\ files (os (snd (remove_book 7 (shelf [dune] OpenFails)))) !! path = None.
Proof.
  rewrite !save_books_run, remove_book_run. repeat split.
Qed.

(** *** Loading *)




(** [load_books] on a file that holds text. *)
Lemma load_books_text (path : string) (bs0 : list Book.t) (w : world) (text : string) :
  files w !! path = Some (Text text) ->
  let s := mkState (mkLms path bs0) w in
  load_books s
  = match Json.loads text with
    | Ok book_data =>
        match iterate book_data with
        | Ok items =>
            match for_each _dict_to_book items s with
            | (Ok bs, s') => (Ok bs, s')
            | (Raise e, s') =>
                if recoverable e
                then (Ok [], mkState (self s') (with_line (os s') read_warning))
                else (Raise e, s')
            end
        | Raise e =>
            if recoverable e
            then (Ok [], mkState (self s) (with_line w read_warning))
            else (Raise e, s)
        end
    | Raise e =>
        if recoverable e
        then (Ok [], mkState (self s) (with_line w read_warning))
        else (Raise e, s)
    end.
Proof.
  intros Hfile s. unfold load_books. unfold_M. subst s.
  cbn [self os storage_file]. rewrite Hfile.
  rewrite bool_decide_eq_true_2 by eauto. cbn [negb os]. rewrite Hfile.
  unfold recoverable.
  destruct (Json.loads text) as [book_data|e]; [|destruct e; reflexivity].
  destruct (iterate book_data) as [items|e]; [|destruct e; reflexivity].
  destruct (for_each _dict_to_book items _) as [[bs|e] s'];
    [reflexivity | destruct e; reflexivity].
Qed.




(** *** Construction on a damaged file *)

(** Construction recovers from a file that cannot be opened and from text
    that is not JSON: the warning is printed and the collection is empty. *)
Lemma init_recovers_not_json (path text : string) (w : world) :
  files w !! path = Some (Text text) ->
  Json.loads text = Raise JSONDecodeError ->
  __init__ path w = (Ok (mkLms path []), with_line w read_warning).
Proof.
  intros Hfile Hloads. unfold __init__. unfold mbind, M_bind.
  rewrite (load_books_text path [] w text Hfile). cbn zeta. rewrite Hloads.
  reflexivity.
Qed.


Lemma init_missing_file (path : string) (w : world) :
  files w !! path = None -> __init__ path w = (Ok (mkLms path []), w).
Proof.
  intros Hfile. unfold __init__, load_books. unfold_M.
  cbn [self os storage_file]. rewrite Hfile.
  rewrite bool_decide_eq_false_2 by (intros [? ?]; discriminate). reflexivity.
Qed.

(** C2. The code does not do what the claim says on every damaged file:
    well-formed JSON that is not a list of complete records, and bytes that
    are not UTF-8, end the construction with an exception the handler does
    not catch; an empty JSON object gives the empty collection without any
    warning. *)
Theorem init_fails_on_damaged_file :
  Json.loads title_only = Ok (PyList [PyDict [("title", PyStr "Dune")]])
  /\ __init__ path (world_of {[path := Text title_only]} WriteOk)
     = (Raise (KeyError "author"), world_of {[path := Text title_only]} WriteOk)
  /\ __init__ path (world_of {[path := Text "7"]} WriteOk)
     = (Raise TypeError, world_of {[path := Text "7"]} WriteOk)
  /\ __init__ path (world_of {[path := Undecodable]} WriteOk)
     = (Raise UnicodeDecodeError, world_of {[path := Undecodable]} WriteOk)
  /\ __init__ path (world_of {[path := Text "{}"]} WriteOk)
     = (Ok (mkLms path []), world_of {[path := Text "{}"]} WriteOk)
  /\ __init__ path (world_of {[path := Text garbage]} WriteOk)
     = (Ok (mkLms path []),
        with_line (world_of {[path := Text garbage]} WriteOk) read_warning).
Proof.
  repeat (split; [reflexivity|]). reflexivity.
Qed.

(** *** Searching *)








Section SearchFacts.

Variable lower : string -> string.
Variable repr : pyobj -> string.




End SearchFacts.











(** *** Further properties of the store *)

(** X1. Constructing the store on a path that does not exist gives the
    empty collection; nothing is printed, no entropy is used and the file
    system is untouched. *)
Theorem construct_on_missing_file (storage : string) (w : world) :
  files w !! storage = None ->
  __init__ storage w = (Ok (mkLms storage []), w).
Proof.
  intros Hfile. unfold __init__, load_books. unfold_M.
  cbn [self os storage_file]. rewrite Hfile.
  rewrite bool_decide_eq_false_2 by (intros [f Hf]; discriminate Hf).
  reflexivity.
Qed.

Lemma construct_on_missing_file_witness :
  __init__ path (world_of ∅ WriteOk) = (Ok (mkLms path []), world_of ∅ WriteOk).
Proof. apply construct_on_missing_file. reflexivity. Defined.



Lemma dict_to_book_fields (l : list (string * pyobj)) (book : Book.t) (s : state) :
  dict_get l "title" = Some (Book.title book) ->
  dict_get l "author" = Some (Book.author book) ->
  dict_get l "year" = Some (Book.year book) ->
  dict_get l "id" = Some (Book.id book) ->
  dict_get l "status" = Some (Book.status book) ->
  _dict_to_book (PyDict l) s = (Ok book, mkState (self s) (after_draw (os s))).
Proof.
  intros Ht Ha Hy Hi Hs. unfold _dict_to_book, getitem.
  rewrite Ht, Ha, Hy, Hi, Hs. unfold_M. rewrite Book__init__run.
  destruct book. reflexivity.
Qed.

(** X3. [_dict_to_book] takes the five fields of a dict by name, whatever
    the order of the keys and whatever other keys there are, and keeps the
    values as they are, without validation; the id generated while the
    record is built is replaced by the stored one, at the cost of four
    bytes of entropy. *)
Theorem dict_to_book_complete (d : pyobj) (book : Book.t) (s : state) :
  complete d book ->
  _dict_to_book d s = (Ok book, mkState (self s) (after_draw (os s))).
Proof.
  intros (l & -> & Ht & Ha & Hy & Hi & Hs). now apply dict_to_book_fields.
Qed.

Lemma dict_to_book_complete_witness :
  _dict_to_book lost_record (shelf [] WriteOk)
  = (Ok lost_dune,
     mkState (self (shelf [] WriteOk)) (after_draw (os (shelf [] WriteOk)))).
Proof.
  apply dict_to_book_complete. exists
    [("status", PyStr "lost"); ("shelf", PyInt 3); ("year", PyInt 1965);
     ("id", PyInt 7); ("author", PyStr "Herbert"); ("title", PyStr "Dune")].
  repeat split.
Defined.

(** X4. A dict that lacks one of the five fields makes [_dict_to_book]
    raise [KeyError] for the first one missing, in the order title, author,
    year, id, status; an object that is no dict raises [TypeError]. The
    collection and the files are untouched either way. *)
Theorem dict_to_book_missing_key (l : list (string * pyobj)) (key : string)
  (s : state) :
  first_missing l = Some key ->
  fst (_dict_to_book (PyDict l) s) = Raise (KeyError key)
  /\ self (snd (_dict_to_book (PyDict l) s)) = self s
  /\ files (os (snd (_dict_to_book (PyDict l) s))) = files (os s)
  /\ (forall obj, (forall l', obj <> PyDict l') ->
        _dict_to_book obj s = (Raise TypeError, s)).
Proof.
  intros Hmiss. unfold first_missing in Hmiss. cbn [List.find] in Hmiss.
  assert (Hnd : forall obj, (forall l', obj <> PyDict l') ->
                  _dict_to_book obj s = (Raise TypeError, s)).
  { intros obj Hobj. destruct obj; try reflexivity. now destruct (Hobj d). }
  unfold _dict_to_book, getitem. unfold_M.
  destruct (dict_get l "title") as [t|];
    [|injection Hmiss as <-; repeat split; exact Hnd].
  destruct (dict_get l "author") as [a|];
    [|injection Hmiss as <-; repeat split; exact Hnd].
  destruct (dict_get l "year") as [y|];
    [|injection Hmiss as <-; repeat split; exact Hnd].
  rewrite Book__init__run.
  destruct (dict_get l "id") as [i|];
    [|injection Hmiss as <-; repeat split; exact Hnd].
  destruct (dict_get l "status") as [st|];
    [discriminate|injection Hmiss as <-; repeat split; exact Hnd].
Qed.

Lemma dict_to_book_missing_key_witness :
  fst (_dict_to_book (PyDict [("title", PyStr "Dune"); ("author", PyStr "Herbert");
                              ("year", PyInt 1965); ("status", PyStr available)])
         (shelf [] WriteOk))
  = Raise (KeyError "id").
Proof.
  apply (dict_to_book_missing_key
           [("title", PyStr "Dune"); ("author", PyStr "Herbert");
            ("year", PyInt 1965); ("status", PyStr available)]
           "id" (shelf [] WriteOk)).
  reflexivity.
Defined.




(** *** update_book_status *)

Lemma assign_status_none (book_id : Z) (new_status : string) (bs : list Book.t) :
  existsb (matches book_id) bs = false ->
  assign_status book_id new_status bs = None.
Proof.
  induction bs as [|b bs IH]; [reflexivity|]. cbn [existsb assign_status].
  intros H. apply orb_false_iff in H as [Hb Hbs]. unfold matches in Hb.
  now rewrite Hb, (IH Hbs).
Qed.

Lemma assign_status_some (book_id : Z) (new_status : string) (bs : list Book.t) :
  existsb (matches book_id) bs = true ->
  exists pre first post,
    bs = pre ++ first :: post
    /\ existsb (matches book_id) pre = false
    /\ matches book_id first = true
    /\ assign_status book_id new_status bs
       = Some (pre ++ Book.set_status first (PyStr new_status) :: post).
Proof.
  induction bs as [|b bs IH]; [discriminate|]. cbn [existsb]. intros H.
  destruct (matches book_id b) eqn:Hb.
  - exists [], b, bs. repeat split; [exact Hb|].
    cbn [assign_status app]. unfold matches in Hb. now rewrite Hb.
  - cbn [orb] in H. destruct (IH H) as (pre & first & post & -> & Hpre & Hf & Ha).
    exists (b :: pre), first, post. repeat split.
    + cbn [existsb]. now rewrite Hb, Hpre.
    + exact Hf.
    + cbn [assign_status app]. unfold matches in Hb. now rewrite Hb, Ha.
Qed.

Lemma update_book_status_run (book_id : Z) (new_status : string) (s : state) :
  update_book_status book_id new_status s
  = if valid_status_name new_status then
      match assign_status book_id new_status (books (self s)) with
      | Some bs => (Ok true, snd (save_books (with_books s bs)))
      | None => (Ok false, s)
      end
    else (Ok false, s).
Proof.
  unfold update_book_status, valid_status_name.
  destruct (_ || _); cbn [negb]; [|reflexivity].
  unfold_M. destruct (assign_status _ _ _) as [bs|]; [|reflexivity].
  fold (with_books s bs). rewrite save_books_run. reflexivity.
Qed.

(** X6. An id that no record has makes [update_book_status] return
    [False], whatever the status asked for; nothing is written and the
    state is what it was. *)
Theorem update_unknown_id (book_id : Z) (new_status : string) (s : state) :
  existsb (matches book_id) (books (self s)) = false ->
  update_book_status book_id new_status s = (Ok false, s).
Proof.
  intros H. rewrite update_book_status_run, (assign_status_none _ _ _ H).
  now destruct (valid_status_name new_status).
Qed.

Lemma update_unknown_id_witness :
  update_book_status 8 checked_out (shelf [dune; emma] WriteOk)
  = (Ok false, shelf [dune; emma] WriteOk).
Proof. apply update_unknown_id. reflexivity. Defined.

Lemma assign_status_frame (book_id : Z) (new_status : string)
  (bs bs' : list Book.t) :
  assign_status book_id new_status bs = Some bs' ->
  length bs' = length bs
  /\ map Book.id bs' = map Book.id bs
  /\ map Book.title bs' = map Book.title bs
  /\ map Book.author bs' = map Book.author bs
  /\ map Book.year bs' = map Book.year bs.
Proof.
  revert bs'. induction bs as [|b bs IH]; intros bs'; [discriminate|].
  cbn [assign_status]. destruct (eq_int (Book.id b) book_id).
  - intros [= <-]. repeat split.
  - destruct (assign_status book_id new_status bs) as [bs1|]; [|discriminate].
    intros [= <-]. destruct (IH bs1 eq_refl) as (H1 & H2 & H3 & H4 & H5).
    cbn [length map]. now rewrite H1, H2, H3, H4, H5.
Qed.

(** X7. Whatever its arguments and its result, [update_book_status] keeps
    the number of records, their order, and the id, title, author and year
    of every record; the storage path of the store stays the same. *)
Theorem update_keeps_other_fields (book_id : Z) (new_status : string) (s : state) :
  let s' := snd (update_book_status book_id new_status s) in
  storage_file (self s') = storage_file (self s)
  /\ length (books (self s')) = length (books (self s))
  /\ map Book.id (books (self s')) = map Book.id (books (self s))
  /\ map Book.title (books (self s')) = map Book.title (books (self s))
  /\ map Book.author (books (self s')) = map Book.author (books (self s))
  /\ map Book.year (books (self s')) = map Book.year (books (self s)).
Proof.
  cbn zeta. rewrite update_book_status_run.
  destruct (valid_status_name new_status); [|repeat split].
  destruct (assign_status _ _ _) as [bs|] eqn:Ha; [|repeat split].
  cbn [snd]. rewrite save_books_self. cbn [with_books self storage_file books].
  split; [reflexivity|]. now apply (assign_status_frame book_id new_status).
Qed.

Lemma assign_status_valid (book_id : Z) (new_status : string)
  (bs bs' : list Book.t) :
  valid_status_name new_status = true ->
  Forall valid_status bs ->
  assign_status book_id new_status bs = Some bs' ->
  Forall valid_status bs'.
Proof.
  intros Hst Hall. revert bs'.
  induction Hall as [|b bs Hb Hbs IH]; intros bs'; [discriminate|].
  cbn [assign_status]. destruct (eq_int (Book.id b) book_id).
  - intros [= <-]. constructor; [|exact Hbs].
    unfold valid_status, valid_status_name in *. cbn [Book.set_status Book.status].
    apply orb_true_iff in Hst as [H|H]; apply String.eqb_eq in H; subst; auto.
  - destruct (assign_status book_id new_status bs) as [bs1|]; [|discriminate].
    intros [= <-]. constructor; auto.
Qed.

Lemma Forall_filter_keep {A : Type} (P : A -> Prop) (f : A -> bool) (l : list A) :
  Forall P l -> Forall P (List.filter f l).
Proof.
  induction 1 as [|x l Hx _ IH]; cbn [List.filter]; [constructor|].
  destruct (f x); [constructor|]; assumption.
Qed.

(** X8. If every record of the collection has one of the two enumerated
    statuses, the same holds after [add_book], after [remove_book] and
    after [update_book_status], whatever their arguments and results. *)
Theorem mutators_keep_status_valid (s : state) :
  Forall valid_status (books (self s)) ->
  (forall title author year,
     Forall valid_status (books (self (snd (add_book title author year s)))))
  /\ (forall book_id,
        Forall valid_status (books (self (snd (remove_book book_id s)))))
  /\ (forall book_id new_status,
        Forall valid_status
          (books (self (snd (update_book_status book_id new_status s))))).
Proof.
  intros Hall. split; [|split].
  - intros title author year. rewrite add_book_run. cbn [snd].
    rewrite save_books_self. cbn [self books].
    apply Forall_app. split; [exact Hall|]. repeat constructor.
  - intros book_id. rewrite remove_book_run.
    destruct (existsb _ _); [|exact Hall].
    cbn [snd]. rewrite save_books_self. now apply Forall_filter_keep.
  - intros book_id new_status. rewrite update_book_status_run.
    destruct (valid_status_name new_status) eqn:Hst; [|exact Hall].
    destruct (assign_status _ _ _) as [bs|] eqn:Ha; [|exact Hall].
    cbn [snd]. rewrite save_books_self.
    now apply (assign_status_valid book_id new_status (books (self s))).
Qed.

Lemma mutators_keep_status_valid_witness :
  Forall valid_status
    (books (self (snd (update_book_status 7 checked_out
                         (shelf [dune; emma] WriteOk))))).
Proof.
  apply (proj2 (proj2 (mutators_keep_status_valid (shelf [dune; emma] WriteOk)
                         ltac:(repeat constructor)))).
Defined.

Lemma existsb_filter_negb {A : Type} (f : A -> bool) (l : list A) :
  existsb f (List.filter (fun x => negb (f x)) l) = false.
Proof.
  induction l as [|x l IH]; [reflexivity|]. cbn [List.filter].
  destruct (f x) eqn:E; cbn [negb]; [exact IH|].
  cbn [existsb]. now rewrite E, IH.
Qed.

Lemma remove_book_books (book_id : Z) (s : state) :
  books (self (snd (remove_book book_id s)))
  = List.filter (fun book => negb (matches book_id book)) (books (self s)).
Proof.
  rewrite remove_book_run. destruct (existsb _ _) eqn:E; cbn [snd].
  - now rewrite save_books_self.
  - symmetry. apply filter_all. rewrite <- E.
    generalize (books (self s)). intros l.
    induction l as [|x l IH]; [reflexivity|]. cbn [existsb].
    now rewrite negb_involutive, IH.
Qed.

(** X9. After [remove_book] no record with the id is left, whatever the
    call returned; removing the same id again returns [False] and changes
    nothing. *)
Theorem remove_book_twice (book_id : Z) (s : state) :
  let s' := snd (remove_book book_id s) in
  existsb (matches book_id) (books (self s')) = false
  /\ remove_book book_id s' = (Ok false, s').
Proof.
  cbn zeta.
  assert (H : existsb (matches book_id)
                (books (self (snd (remove_book book_id s)))) = false)
    by (rewrite remove_book_books; apply existsb_filter_negb).
  split; [exact H|]. rewrite (remove_book_run book_id (snd _)). now rewrite H.
Qed.



(** *** Persistence *)








(** X14. A write that breaks off and leaves text that is not JSON in the
    storage file loses the persisted catalogue: the collection in memory is
    kept, but a store constructed afterwards on the same file starts empty,
    with the read warning. *)
Theorem broken_write_loses_catalogue (s : state) (residue : string) :
  disk (os s) = WriteFails (Text residue) ->
  Json.loads residue = Raise JSONDecodeError ->
  books (self (snd (save_books s))) = books (self s)
  /\ fst (__init__ (storage_file (self s)) (os (snd (save_books s))))
     = Ok (mkLms (storage_file (self s)) [])
  /\ stdout (snd (__init__ (storage_file (self s)) (os (snd (save_books s)))))
     = stdout (os s) ++ [save_warning; read_warning].
Proof.
  intros Hd Hl. split; [now rewrite save_books_self|].
  rewrite save_books_run, Hd. cbn [snd os].
  rewrite (init_recovers_not_json _ residue).
  - cbn [fst snd]. split; [reflexivity|].
    unfold with_line, with_file. cbn [stdout]. now rewrite <- app_assoc.
  - unfold with_line, with_file. cbn [files]. apply lookup_insert_eq.
  - exact Hl.
Qed.

Lemma broken_write_loses_catalogue_witness :
  fst (__init__ path
         (os (snd (save_books (shelf [dune; emma] (WriteFails (Text garbage)))))))
  = Ok (mkLms path []).
Proof.
  apply (proj1 (proj2 (broken_write_loses_catalogue
                         (shelf [dune; emma] (WriteFails (Text garbage)))
                         garbage eq_refl eq_refl))).
Defined.

Lemma assign_status_again (book_id : Z) (new_status : string)
  (bs bs' : list Book.t) :
  assign_status book_id new_status bs = Some bs' ->
  assign_status book_id new_status bs' = Some bs'.
Proof.
  revert bs'. induction bs as [|b bs IH]; intros bs'; [discriminate|].
  cbn [assign_status]. destruct (eq_int (Book.id b) book_id) eqn:Hb.
  - intros [= <-]. cbn [assign_status Book.set_status Book.id]. now rewrite Hb.
  - destruct (assign_status book_id new_status bs) as [bs1|]; [|discriminate].
    intros [= <-]. cbn [assign_status]. now rewrite Hb, (IH bs1 eq_refl).
Qed.

(** X15. A status update that succeeded can be repeated: the second call
    with the same arguments returns [True] again and leaves the collection
    as the first call left it. *)
Theorem update_twice (book_id : Z) (new_status : string) (s : state) :
  fst (update_book_status book_id new_status s) = Ok true ->
  let s' := snd (update_book_status book_id new_status s) in
  fst (update_book_status book_id new_status s') = Ok true
  /\ books (self (snd (update_book_status book_id new_status s')))
     = books (self s').
Proof.
  rewrite update_book_status_run.
  destruct (valid_status_name new_status) eqn:Hst; [|discriminate].
  destruct (assign_status _ _ (books (self s))) as [bs|] eqn:Ha; [|discriminate].
  intros _. cbn [snd]. set (s1 := snd (save_books (with_books s bs))).
  assert (Hb : books (self s1) = bs) by (unfold s1; now rewrite save_books_self).
  rewrite update_book_status_run, Hst, Hb.
  rewrite (assign_status_again book_id new_status (books (self s)) bs Ha).
  cbn [fst snd]. split; [reflexivity|]. now rewrite save_books_self.
Qed.

Lemma update_twice_witness :
  books (self (snd (update_book_status 7 checked_out
                      (snd (update_book_status 7 checked_out
                              (shelf [dune; emma] WriteOk))))))
  = books (self (snd (update_book_status 7 checked_out
                        (shelf [dune; emma] WriteOk)))).
Proof.
  apply (proj2 (update_twice 7 checked_out (shelf [dune; emma] WriteOk) eq_refl)).
Defined.

(** *** More on searching *)

(** X16. A search type other than title, author and year gives the empty
    result, without raising and without looking at any record, whatever the
    attributes of the records hold. *)
Theorem search_unknown_type (lower : string -> string) (repr : pyobj -> string)
  (query search_type : string) (s : state) :
  search_type <> "title" -> search_type <> "author" -> search_type <> "year" ->
  search_books lower repr query search_type s = (Ok [], s).
Proof.
  intros Ht Ha Hy. unfold search_books. unfold_M.
  apply String.eqb_neq in Ht, Ha, Hy. now rewrite Ht, Ha, Hy.
Qed.

Lemma search_unknown_type_witness :
  search_books ascii_lower no_repr "Dune" "Title" (shelf [dune; emma] WriteOk)
  = (Ok [], shelf [dune; emma] WriteOk).
Proof. apply search_unknown_type; discriminate. Defined.

Lemma for_if_sublist {A : Type} (cond : A -> result bool) (l found : list A) :
  for_if cond l = Ok found -> sublist found l.
Proof.
  revert found. induction l as [|x l IH]; intros found; cbn [for_if].
  - intros [= <-]. constructor.
  - destruct (cond x) as [b|e]; [|discriminate].
    destruct (for_if cond l) as [ys|e]; [|discriminate].
    intros [= <-]. destruct b; [apply sublist_skip | apply sublist_cons]; auto.
Qed.

Lemma filter_sublist {A : Type} (f : A -> bool) (l : list A) :
  sublist (List.filter f l) l.
Proof.
  induction l as [|x l IH]; cbn [List.filter]; [constructor|].
  destruct (f x); [apply sublist_skip | apply sublist_cons]; exact IH.
Qed.

Lemma search_books_state (lower : string -> string) (repr : pyobj -> string)
  (query search_type : string) (s : state) :
  snd (search_books lower repr query search_type s) = s.
Proof.
  unfold search_books. unfold_M.
  destruct (String.eqb search_type "title"); [reflexivity|].
  destruct (String.eqb search_type "author"); [reflexivity|].
  destruct (String.eqb search_type "year"); reflexivity.
Qed.

(** X17. A search never changes the state, whether it returns or raises;
    what it returns is a selection of the records of the collection, in
    collection order, each at most as often as the collection has it. *)
Theorem search_selects (lower : string -> string) (repr : pyobj -> string)
  (query search_type : string) (s : state) :
  snd (search_books lower repr query search_type s) = s
  /\ forall found,
       fst (search_books lower repr query search_type s) = Ok found ->
       sublist found (books (self s)).
Proof.
  split; [apply search_books_state|].
  unfold search_books. unfold_M.
  destruct (String.eqb search_type "title");
    [intros found; apply for_if_sublist|].
  destruct (String.eqb search_type "author");
    [intros found; apply for_if_sublist|].
  destruct (String.eqb search_type "year"); cbn [fst snd].
  - intros found [= <-]. apply filter_sublist.
  - intros found [= <-]. apply sublist_nil_l.
Qed.

Lemma search_selects_witness :
  sublist [dune] (books (self (shelf [emma; dune] WriteOk))).
Proof.
  apply (proj2 (search_selects ascii_lower no_repr "du" "title"
                  (shelf [emma; dune] WriteOk))).
  reflexivity.
Defined.

Lemma for_if_raises {A : Type} (cond : A -> result bool) (pre post : list A)
  (x : A) (e : exn) :
  Forall (fun y => exists b, cond y = Ok b) pre ->
  cond x = Raise e ->
  for_if cond (pre ++ x :: post) = Raise e.
Proof.
  intros Hpre Hx. induction Hpre as [|y pre [b Hy] _ IH]; cbn [for_if app].
  - now rewrite Hx.
  - now rewrite Hy, IH.
Qed.

(** X18. A search by title raises [AttributeError] as soon as the
    collection holds a record whose title is not text (load accepts such a
    record), even if the records before it are fine; the state is
    unchanged. A search by year over the same collection returns. *)
Theorem search_title_not_text (lower : string -> string) (repr : pyobj -> string)
  (query : string) (s : state) (pre post : list Book.t) (book : Book.t) :
  books (self s) = pre ++ book :: post ->
  Forall (fun b => is_str (Book.title b)) pre ->
  ~ is_str (Book.title book) ->
  search_books lower repr query "title" s = (Raise AttributeError, s)
  /\ exists found, search_books lower repr query "year" s = (Ok found, s).
Proof.
  intros Hb Hpre Hbook. split; [|eexists; reflexivity].
  unfold search_books. unfold_M. cbn [String.eqb Ascii.eqb Bool.eqb].
  rewrite Hb.
  rewrite (for_if_raises _ pre post book AttributeError); [reflexivity| |].
  - eapply List.Forall_impl; [|exact Hpre]. cbn beta. intros b [t ->].
    eexists. reflexivity.
  - unfold query_in_lower, lower_method.
    destruct (Book.title book); try reflexivity. destruct Hbook. eexists.
    reflexivity.
Qed.

Lemma search_title_not_text_witness :
  search_books ascii_lower no_repr "du" "title" (shelf [dune; untitled; emma] WriteOk)
  = (Raise AttributeError, shelf [dune; untitled; emma] WriteOk).
Proof.
  apply (proj1 (search_title_not_text ascii_lower no_repr "du"
                  (shelf [dune; untitled; emma] WriteOk) [dune] [emma] untitled
                  eq_refl
                  ltac:(repeat constructor; eexists; reflexivity)
                  ltac:(intros [t H]; discriminate H))).
Defined.

(** *** More on ids *)

Lemma byte_to_N_inj (a b : Byte.byte) : Byte.to_N a = Byte.to_N b -> a = b.
Proof.
  intros H. pose proof (Byte.of_to_N a) as Ha. pose proof (Byte.of_to_N b) as Hb.
  congruence.
Qed.

Lemma be32_inj (a0 a1 a2 a3 b0 b1 b2 b3 : Byte.byte) :
  be32 a0 a1 a2 a3 = be32 b0 b1 b2 b3 ->
  a0 = b0 /\ a1 = b1 /\ a2 = b2 /\ a3 = b3.
Proof.
  unfold be32. intros H. apply N2Z.inj in H.
  pose proof (Byte.to_N_bounded a0). pose proof (Byte.to_N_bounded a1).
  pose proof (Byte.to_N_bounded a2). pose proof (Byte.to_N_bounded a3).
  pose proof (Byte.to_N_bounded b0). pose proof (Byte.to_N_bounded b1).
  pose proof (Byte.to_N_bounded b2). pose proof (Byte.to_N_bounded b3).
  assert (E : Byte.to_N a0 = Byte.to_N b0 /\ Byte.to_N a1 = Byte.to_N b1
              /\ Byte.to_N a2 = Byte.to_N b2 /\ Byte.to_N a3 = Byte.to_N b3)
    by lia.
  destruct E as (E0 & E1 & E2 & E3).
  repeat split; apply byte_to_N_inj; assumption.
Qed.

(** X19. The id is a one-to-one reading of the four bytes drawn: two draws
    give the same id only if they are the same four bytes, and every
    integer from 0 to 2^32 - 1 is the id of some draw. *)
Theorem generated_id_one_to_one (s s' : state) :
  (fst (generate_unique_id s) = fst (generate_unique_id s') ->
   fst (urandom 4 s) = fst (urandom 4 s'))
  /\ (forall n, 0 <= n < 2 ^ 32 ->
        exists e, fst (generate_unique_id
                         (mkState (self s)
                            (mkWorld (files (os s)) (disk (os s)) e 0
                               (stdout (os s)))))
                  = Ok n).
Proof.
  split.
  - rewrite !generate_unique_id_run. cbn [fst]. intros [= H].
    unfold next_id in H. apply be32_inj in H as (H0 & H1 & H2 & H3).
    unfold urandom. cbn [fst seq map]. now rewrite H0, H1, H2, H3.
  - intros n Hn.
    pose (byte_at (k : Z) :=
            match Byte.of_N (Z.to_N ((n / 256 ^ k) mod 256)) with
            | Some b => b
            | None => Byte.x00
            end).
    exists (fun i => match i with
                     | O => byte_at 3 | 1%nat => byte_at 2
                     | 2%nat => byte_at 1 | _ => byte_at 0
                     end).
    rewrite generate_unique_id_run. cbn [fst os]. f_equal.
    unfold next_id. cbn [entropy drawn]. unfold be32.
    assert (Hb : forall k, Byte.to_N (byte_at k) = Z.to_N ((n / 256 ^ k) mod 256)).
    { intros k. unfold byte_at.
      destruct (Byte.of_N _) as [b|] eqn:E.
      - now apply Byte.to_of_N.
      - apply Byte.of_N_None_iff in E.
        pose proof (Z.mod_pos_bound (n / 256 ^ k) 256 ltac:(lia)). lia. }
    rewrite !Hb. change (2 ^ 32) with 4294967296 in Hn.
    change (256 ^ 3) with 16777216. change (256 ^ 2) with 65536.
    change (256 ^ 1) with 256. change (256 ^ 0) with 1.
    rewrite Z.div_1_r.
    pose proof (Z.mod_pos_bound (n / 16777216) 256 ltac:(lia)).
    pose proof (Z.mod_pos_bound (n / 65536) 256 ltac:(lia)).
    pose proof (Z.mod_pos_bound (n / 256) 256 ltac:(lia)).
    pose proof (Z.mod_pos_bound n 256 ltac:(lia)).
    rewrite !N2Z.inj_add, !N2Z.inj_mul, !Z2N.id by lia.
    change (Z.of_N 256) with 256.
    pose proof (Z.div_mod n 256 ltac:(lia)).
    pose proof (Z.div_mod (n / 256) 256 ltac:(lia)).
    pose proof (Z.div_mod (n / 65536) 256 ltac:(lia)).
    assert (n / 65536 = n / 256 / 256) by (rewrite Z.div_div by lia; reflexivity).
    assert (n / 16777216 = n / 65536 / 256) by (rewrite Z.div_div by lia; reflexivity).
    assert (n / 16777216 < 256) by (apply Z.div_lt_upper_bound; lia).
    assert (0 <= n / 16777216) by (apply Z.div_pos; lia).
    rewrite (Z.mod_small (n / 16777216) 256) by lia.
    lia.
Qed.

Lemma generated_id_one_to_one_witness :
  fst (urandom 4 (shelf [] WriteOk)) = fst (urandom 4 (shelf [dune] OpenFails)).
Proof.
  apply (proj1 (generated_id_one_to_one (shelf [] WriteOk) (shelf [dune] OpenFails))).
  reflexivity.
Defined.

(** *** Listing and the menu loop *)

Lemma print_each_run {A : Type} (line : A -> string) (l : list A) (s : state) :
  print_each line l s
  = (Ok tt, mkState (self s) (with_lines (os s) (map line l))).
Proof.
  revert s. induction l as [|x l IH]; intros s; cbn [print_each map].
  - unfold_M. destruct s as [slf w]. destruct w. unfold with_lines.
    cbn [self os files disk entropy drawn stdout]. now rewrite app_nil_r.
  - unfold mbind, M_bind. unfold print at 1. rewrite IH.
    unfold with_lines, with_line. cbn [self os files disk entropy drawn stdout].
    now rewrite <- app_assoc.
Qed.

Section MenuFacts.

Variable lower : string -> string.
Variable repr : pyobj -> string.
Variable int_of_str : string -> option Z.
Variable str_of_error : error -> string.

Lemma display_books_run (s : state) :
  display_books repr s
  = (Ok tt,
     mkState (self s)
       (with_lines (os s)
          match books (self s) with
          | [] => ["Библиотека пуста."]
          | _ :: _ => map (display_line repr) (books (self s))
          end)).
Proof.
  unfold display_books. unfold_M. destruct (books (self s)) as [|b bs].
  - reflexivity.
  - now rewrite print_each_run.
Qed.

End MenuFacts.

(** X20. [display_books] returns after printing one line per record, in
    collection order, or the single notice that the library is empty; the
    collection, the files and the entropy source are as before. *)
Theorem display_books_prints (repr : pyobj -> string) (s : state) :
  let s' := snd (display_books repr s) in
  fst (display_books repr s) = Ok tt
  /\ same_catalogue s s'
  /\ stdout (os s')
     = stdout (os s) ++
       (if decide (books (self s) = []) then ["Библиотека пуста."]
        else map (display_line repr) (books (self s)))
  /\ (books (self s) <> [] ->
      length (stdout (os s')) = (length (stdout (os s)) + length (books (self s)))%nat).
Proof.
  cbn zeta. rewrite display_books_run. cbn [fst snd self os with_lines stdout].
  split; [reflexivity|]. split; [repeat split|].
  destruct (books (self s)) as [|b bs] eqn:E.
  - split; [reflexivity|]. intros H. now destruct H.
  - split; [reflexivity|]. intros _.
    rewrite length_app, length_map. reflexivity.
Qed.

Lemma display_books_prints_witness :
  length (stdout (os (snd (display_books no_repr (shelf [dune; emma] WriteOk)))))
  = (length (stdout (os (shelf [dune; emma] WriteOk)))
     + length (books (self (shelf [dune; emma] WriteOk))))%nat.
Proof.
  apply (proj2 (proj2 (proj2 (display_books_prints no_repr
                                (shelf [dune; emma] WriteOk))))).
  discriminate.
Defined.

Lemma frame_anything : frame anything.
Proof. repeat split. Qed.

Lemma frame_same_catalogue : frame same_catalogue.
Proof.
  unfold same_catalogue. split; [|split].
  - now intros s.
  - intros s1 s2 s3 (H1 & H2 & H3) (H4 & H5 & H6).
    repeat split; congruence.
  - intros s line. repeat split.
Qed.

Section LoopFacts.

Variable lower : string -> string.
Variable repr : pyobj -> string.
Variable int_of_str : string -> option Z.
Variable str_of_error : error -> string.

Variable R : state -> state -> Prop.
Hypothesis HR : frame R.

Lemma obeys_ret {A : Type} (Q : A -> Prop) (a : A) : Q a -> obeys R Q (mret a).
Proof. intros Ha ss. destruct HR as (Hrefl & _). repeat split; auto. Qed.

Lemma obeys_bind {A B : Type} (Q : A -> Prop) (Q' : B -> Prop)
  (c : Cli A) (k : A -> Cli B) :
  obeys R Q c -> (forall a, Q a -> obeys R Q' (k a)) -> obeys R Q' (c ≫= k).
Proof.
  intros Hc Hk ss. unfold mbind, Cli_bind.
  destruct (Hc ss) as (H1 & H2 & H3).
  destruct (c ss) as [[a|e] ss1]; cbn [fst snd] in *.
  - destruct (Hk a H3 ss1) as (H4 & H5 & H6).
    destruct HR as (_ & Htrans & _). repeat split; eauto.
    now transitivity (stdin ss1).
  - repeat split; auto.
Qed.

Lemma obeys_weaken {A : Type} (Q Q' : A -> Prop) (c : Cli A) :
  (forall a, Q a -> Q' a) -> obeys R Q c -> obeys R Q' c.
Proof.
  intros HQ Hc ss. destruct (Hc ss) as (H1 & H2 & H3). repeat split; auto.
  destruct (fst (c ss)); auto.
Qed.

Lemma obeys_call {A : Type} (Q : A -> Prop) (m : M A) :
  (forall s, R s (snd (m s))
             /\ match fst (m s) with
                | Ok a => Q a
                | Raise e => e <> Unmodelled
                end) ->
  obeys R Q (call m).
Proof.
  intros Hm ss. unfold call. destruct (Hm (store ss)) as (H1 & H2).
  destruct (m (store ss)) as [[a|e] s']; cbn [fst snd store stdin] in *.
  - repeat split; auto.
  - repeat split; auto. destruct e; try reflexivity. now destruct H2.
Qed.

Lemma obeys_print (line : string) : obeys R (fun _ => True) (call (print line)).
Proof.
  apply obeys_call. intros s. unfold print. cbn [fst snd].
  destruct HR as (_ & _ & Hprint). split; [apply Hprint | exact I].
Qed.

Lemma obeys_input (prompt : string) : obeys R (fun _ => True) (input prompt).
Proof.
  intros ss. unfold input, print. cbn [snd].
  destruct HR as (_ & _ & Hprint).
  destruct (stdin ss) as [|line rest]; cbn [fst snd store stdin];
    repeat split; auto. apply suffix_cons_r. reflexivity.
Qed.

Lemma obeys_input_int (prompt : string) :
  obeys R (fun _ => True) (input_int int_of_str prompt).
Proof.
  unfold input_int. eapply obeys_bind; [apply obeys_input|].
  intros text _. destruct (int_of_str text) as [n|].
  - now apply obeys_ret.
  - intros ss. destruct HR as (Hrefl & _). repeat split; auto.
Qed.

Lemma obeys_print_each {A : Type} (line : A -> string) (l : list A) :
  obeys R (fun _ => True) (call (print_each line l)).
Proof.
  apply obeys_call. intros s. rewrite print_each_run. cbn [fst snd].
  split; [|exact I]. destruct HR as (Hrefl & Htrans & Hprint).
  clear Hrefl. revert s. induction l as [|x l IH] using rev_ind; intros s.
  - unfold with_lines. cbn [map]. rewrite app_nil_r.
    destruct s as [slf w]. destruct w. apply HR.
  - rewrite map_app. cbn [map].
    eapply Htrans; [apply IH|].
    assert (E : mkState (self s) (with_lines (os s) (map line l ++ [line x]))
                = mkState (self (mkState (self s) (with_lines (os s) (map line l))))
                    (with_line (os (mkState (self s) (with_lines (os s) (map line l))))
                       (line x))).
    { unfold with_lines, with_line. cbn [self os files disk entropy drawn stdout].
      now rewrite app_assoc. }
    rewrite E. apply Hprint.
Qed.

Lemma obeys_display : obeys R (fun _ => True) (call (display_books repr)).
Proof.
  apply obeys_call. intros s. unfold display_books. unfold_M.
  destruct (books (self s)) as [|b bs] eqn:E.
  - cbn [fst snd]. destruct HR as (_ & _ & Hprint). split; [apply Hprint | exact I].
  - pose proof (obeys_print_each (display_line repr) (b :: bs)
                  (mkSession s [])) as (H1 & _ & H3).
    unfold call in H1, H3. rewrite print_each_run in *. cbn [fst snd store] in *.
    split; [exact H1 | exact I].
Qed.

Lemma search_books_outcome (query search_type : string) (s : state) :
  match fst (search_books lower repr query search_type s) with
  | Ok _ => True
  | Raise e => e = AttributeError
  end.
Proof.
  assert (Hfor : forall field l,
            match for_if (fun book : Book.t =>
                            query_in_lower lower (lower query) (field book)) l with
            | Ok _ => True
            | Raise e => e = AttributeError
            end).
  { intros field l. induction l as [|b l IH]; cbn [for_if]; [exact I|].
    unfold query_in_lower at 1, lower_method.
    destruct (field b); try reflexivity.
    destruct (for_if _ l); [exact I | exact IH]. }
  unfold search_books. unfold_M.
  destruct (String.eqb search_type "title"); [apply Hfor|].
  destruct (String.eqb search_type "author"); [apply Hfor|].
  destruct (String.eqb search_type "year"); exact I.
Qed.

Lemma obeys_search (query search_type : string) :
  obeys R (fun _ => True) (call (search_books lower repr query search_type)).
Proof.
  apply obeys_call. intros s.
  rewrite search_books_state. destruct HR as (Hrefl & _). split; [apply Hrefl|].
  pose proof (search_books_outcome query search_type s) as H.
  destruct (fst _); [exact I|]. now subst.
Qed.

End LoopFacts.

Section ActionFacts.

Variable lower : string -> string.
Variable repr : pyobj -> string.
Variable int_of_str : string -> option Z.
Variable str_of_error : error -> string.

Ltac step :=
  first
    [ apply obeys_ret; [assumption | try exact I; try discriminate]
    | eapply obeys_bind;
      [ assumption
      | first [ apply obeys_input | apply obeys_input_int | apply obeys_print
              | apply obeys_print_each | apply obeys_display | apply obeys_search ];
        assumption
      | intros ? _ ] ].

Lemma action_reads (R : state -> state -> Prop) (choice : string) :
  frame R ->
  choice <> "1" -> choice <> "2" -> choice <> "5" ->
  obeys R (leaves_only_on_6 choice) (action lower repr int_of_str choice).
Proof.
  intros HR H1 H2 H5. unfold action, leaves_only_on_6.
  apply String.eqb_neq in H1, H2, H5. rewrite H1, H2, H5.
  destruct (String.eqb choice "3").
  { do 3 step. destruct a1; repeat step. }
  destruct (String.eqb choice "4"); [repeat step|].
  destruct (String.eqb choice "6") eqn:E6.
  { step. apply obeys_ret; [assumption|]. intros _. now apply String.eqb_eq. }
  repeat step.
Qed.

Lemma obeys_mutator {A : Type} (m : M A) :
  (forall s, exists a, fst (m s) = Ok a) ->
  obeys anything (fun _ => True) (call m).
Proof.
  intros Hm. apply obeys_call. intros s. destruct (Hm s) as [a Ha].
  rewrite Ha. repeat split.
Qed.

Lemma action_any (choice : string) :
  obeys anything (leaves_only_on_6 choice) (action lower repr int_of_str choice).
Proof.
  pose proof frame_anything as HR.
  destruct (String.eqb_spec choice "1") as [->|H1].
  { unfold action. cbn [String.eqb Ascii.eqb Bool.eqb]. do 3 step.
    eapply obeys_bind; [assumption| |intros ? _; repeat step].
    apply obeys_mutator. intros s. rewrite add_book_run. eauto. }
  destruct (String.eqb_spec choice "2") as [->|H2].
  { unfold action.
    change ("2" =? "1")%string with false. change ("2" =? "2")%string with true.
    cbn iota. step.
    eapply obeys_bind; [assumption| |intros removed _; destruct removed; repeat step].
    apply obeys_mutator. intros s. rewrite remove_book_run.
    destruct (existsb _ _); eauto. }
  destruct (String.eqb_spec choice "5") as [->|H5].
  { unfold action.
    change ("5" =? "1")%string with false. change ("5" =? "2")%string with false.
    change ("5" =? "3")%string with false. change ("5" =? "4")%string with false.
    change ("5" =? "5")%string with true. cbn iota. do 2 step.
    eapply obeys_bind; [assumption| |intros updated _; destruct updated; repeat step].
    apply obeys_mutator. intros s. rewrite update_book_status_run.
    destruct (valid_status_name _); [|eauto].
    destruct (assign_status _ _ _); eauto. }
  now apply action_reads.
Qed.

Lemma try_action_obeys (R : state -> state -> Prop) (choice : string) :
  frame R ->
  obeys R (leaves_only_on_6 choice) (action lower repr int_of_str choice) ->
  forall ss,
    exists stop ss',
      try_action lower repr int_of_str str_of_error choice ss = (Done stop, ss')
      /\ R (store ss) (store ss')
      /\ suffix (stdin ss') (stdin ss)
      /\ leaves_only_on_6 choice stop.
Proof.
  intros HR Hact ss. unfold try_action.
  destruct (Hact ss) as (H1 & H2 & H3).
  destruct (action lower repr int_of_str choice ss) as [[stop|e] ss1]; cbn [fst snd] in *.
  - exists stop, ss1. auto.
  - destruct HR as (_ & Htrans & Hprint).
    destruct (is_ValueError e); [|rewrite H3];
      (eexists false, _; split; [reflexivity|]; cbn [store stdin];
       repeat split; [eapply Htrans; [exact H1 | apply Hprint] | exact H2
                     | discriminate]).
Qed.

End ActionFacts.


(** X21. The [try] statement of the menu loop always completes: whatever
    the choice, the input that follows and the state of the store, no
    exception leaves it (a record that makes a search raise and input that
    runs out inside an action included); it only uses up input (what is left
    to read is an end piece of what there was), and it asks to leave the
    loop for no choice but 6. *)
Theorem try_statement_completes (lower : string -> string)
  (repr : pyobj -> string) (int_of_str : string -> option Z)
  (str_of_error : error -> string) (choice : string) (ss : session) :
  exists stop ss',
    try_action lower repr int_of_str str_of_error choice ss = (Done stop, ss')
    /\ suffix (stdin ss') (stdin ss)
    /\ (stop = true -> choice = "6").
Proof.
  pose proof (action_any lower repr int_of_str choice) as Haction.
  destruct (try_action_obeys lower repr int_of_str str_of_error anything choice
              frame_anything Haction ss)
    as (stop & ss' & Hrun & _ & Hinput & Hstop).
  exists stop, ss'. repeat split; assumption.
Qed.

Lemma try_statement_completes_witness :
  exists stop ss',
    try_action ascii_lower no_repr int_of_digits some_error_text "3"
      (mkSession (shelf [dune; untitled] WriteOk) ["title"; "du"; "6"])
    = (Done stop, ss')
    /\ suffix (stdin ss') ["title"; "du"; "6"]
    /\ (stop = true -> "3" = "6").
Proof.
  apply (try_statement_completes ascii_lower no_repr int_of_digits some_error_text
           "3" (mkSession (shelf [dune; untitled] WriteOk) ["title"; "du"; "6"])).
Defined.

(** X22. Every choice other than 1, 2 and 5 (search, listing, leaving, an
    unknown choice) leaves the collection, the files and the entropy source
    as they are, whatever follows on the input. *)
Theorem reading_choices_keep_catalogue (lower : string -> string)
  (repr : pyobj -> string) (int_of_str : string -> option Z)
  (str_of_error : error -> string) (choice : string) (ss : session) :
  choice <> "1" -> choice <> "2" -> choice <> "5" ->
  same_catalogue (store ss)
    (store (snd (try_action lower repr int_of_str str_of_error choice ss))).
Proof.
  intros H1 H2 H5.
  destruct (try_action_obeys lower repr int_of_str str_of_error same_catalogue
              choice frame_same_catalogue
              (action_reads lower repr int_of_str same_catalogue choice
                 frame_same_catalogue H1 H2 H5) ss)
    as (stop & ss' & E & HR & _).
  now rewrite E.
Qed.

Lemma reading_choices_keep_catalogue_witness :
  same_catalogue (shelf [dune; untitled] WriteOk)
    (store (snd (try_action ascii_lower no_repr int_of_digits some_error_text "3"
                   (mkSession (shelf [dune; untitled] WriteOk) ["title"; "du"])))).
Proof.
  apply (reading_choices_keep_catalogue ascii_lower no_repr int_of_digits
           some_error_text "3"
           (mkSession (shelf [dune; untitled] WriteOk) ["title"; "du"]));
    discriminate.
Defined.

(** X23. A line that [int] rejects where a number is asked for ends the
    action with the message for invalid data: the record is not added
    (choice 1, after the title and the author were read), nothing is
    removed (choice 2), no status is changed and the status line is not
    read (choice 5); the collection and the files are untouched and the
    loop goes on. *)
Theorem rejected_number_aborts_action (lower : string -> string)
  (repr : pyobj -> string) (int_of_str : string -> option Z)
  (str_of_error : error -> string) (ss : session) (bad : string) :
  int_of_str bad = None ->
  (forall title author rest,
     stdin ss = title :: author :: bad :: rest ->
     try_action lower repr int_of_str str_of_error "1" ss
     = (Done false,
        printed ss ["Введите название книги: "; "Введите автора книги: ";
                    "Введите год издания: ";
                    "Введены некорректные данные. Попробуйте снова."] rest))
  /\ (forall rest,
        stdin ss = bad :: rest ->
        try_action lower repr int_of_str str_of_error "2" ss
        = (Done false,
           printed ss ["Введите ID книги для удаления: ";
                       "Введены некорректные данные. Попробуйте снова."] rest)
        /\ try_action lower repr int_of_str str_of_error "5" ss
           = (Done false,
              printed ss ["Введите ID книги: ";
                          "Введены некорректные данные. Попробуйте снова."] rest)).
Proof.
  intros Hbad. destruct ss as [[slf w] lines]. destruct w.
  split; [intros title author rest Hin | intros rest Hin; split];
    cbn [stdin] in Hin; subst lines;
    unfold try_action, action, input_int, input, call, print, printed,
      with_lines, with_line;
    unfold mbind, Cli_bind, mret, Cli_ret;
    cbn [String.eqb Ascii.eqb Bool.eqb fst snd store stdin self os files disk
           entropy drawn stdout];
    rewrite Hbad;
    cbn [is_ValueError fst snd store stdin self os files disk entropy drawn stdout];
    rewrite <- ?app_assoc; reflexivity.
Qed.

Lemma rejected_number_aborts_action_witness :
  try_action ascii_lower no_repr int_of_digits some_error_text "2"
    (mkSession (shelf [dune] WriteOk) ["seven"; "6"])
  = (Done false,
     printed (mkSession (shelf [dune] WriteOk) ["seven"; "6"])
       ["Введите ID книги для удаления: ";
        "Введены некорректные данные. Попробуйте снова."] ["6"]).
Proof.
  apply (proj1 (proj2 (rejected_number_aborts_action ascii_lower no_repr
                         int_of_digits some_error_text
                         (mkSession (shelf [dune] WriteOk) ["seven"; "6"])
                         "seven" eq_refl)
                  ["6"] eq_refl)).
Defined.

Section MainFacts.

Variable lower : string -> string.
Variable repr : pyobj -> string.
Variable int_of_str : string -> option Z.
Variable str_of_error : error -> string.




End MainFacts.


(** X25. Choice 6 ends the loop at once: the farewell is printed, the
    lines after it are not read, and the collection, the files and the
    entropy source are as they were. *)
Theorem exit_leaves_everything (lower : string -> string) (repr : pyobj -> string)
  (int_of_str : string -> option Z) (str_of_error : error -> string)
  (fuel : nat) (ss : session) (rest : list string) :
  stdin ss = "6" :: rest ->
  loop lower repr int_of_str str_of_error (S fuel) ss
  = Some (Done tt,
          printed ss (menu ++ ["Выберите действие: "; "Завершение работы..."]) rest).
Proof.
  intros Hin. cbn [loop]. unfold iteration, call, input. unfold mbind, Cli_bind.
  rewrite print_each_run. cbn [fst snd store stdin]. rewrite Hin.
  unfold try_action, action, call, print. unfold mbind, Cli_bind, mret, Cli_ret.
  cbn [String.eqb Ascii.eqb Bool.eqb fst snd store stdin self os].
  unfold printed, with_lines, with_line.
  cbn [files disk entropy drawn stdout self os].
  rewrite map_id, <- !app_assoc. reflexivity.
Qed.

Lemma exit_leaves_everything_witness :
  loop ascii_lower no_repr int_of_digits some_error_text 1
    (mkSession (shelf [dune] WriteOk) ["6"; "1"; "Emma"])
  = Some (Done tt,
          printed (mkSession (shelf [dune] WriteOk) ["6"; "1"; "Emma"])
            (menu ++ ["Выберите действие: "; "Завершение работы..."])
            ["1"; "Emma"]).
Proof.
  apply (exit_leaves_everything ascii_lower no_repr int_of_digits some_error_text
           0 (mkSession (shelf [dune] WriteOk) ["6"; "1"; "Emma"]) ["1"; "Emma"]).
  reflexivity.
Defined.
